(** * A shallow embedding of the legal-assistant answer orchestrator

    The development embeds [SmartLegalChatbot] (chatbot.py) and the part of
    [VectorStoreManager] it calls (vector_store.py).

    - Python [str] is [string]; a character stands for one code point of the
      8-bit range.  The fixed messages keep their symbols as written in the
      source; nothing below depends on the length of a fixed message.
    - Python exceptions are values of [exn]; a computation that may raise
      returns a [res].  Every [except Exception] handler of the source is a
      [try_except] here.
    - The hosted services (index listing, vector search, generation) are
      functions of an environment [Env]: each one answers from the time and
      the calls made so far, so an environment can script any sequence of
      successes and failures.  A generation call that returns gives a
      [Response]; reading its [text] can still raise, as the accessor of
      the library does for a response that carries no text.
    - [print] writes a line to the console.  The lines the methods of
      [VectorStoreManager] print are ASCII literals, at most followed by
      the message of an exception of a hosted service, and are taken to be
      printable.  The one line with a symbol outside ASCII is printed by
      [get_embeddings]: there the console decides, and [print] raises when
      it cannot encode the line.
    - [time.time()] reads a clock kept in the external state; the clock is a
      rational number of seconds (the source uses floats, whose rounding is
      not modelled).  [time.sleep d] advances it by [d], and every call to a
      hosted service advances it by the latency the environment gives. *)

From Stdlib Require Import String Ascii List Bool Arith ZArith QArith Lia Lqa.
From Stdlib Require Import DecimalString Sorted.
Import ListNotations.
Close Scope Q_scope.
Open Scope string_scope.

(** ** Python values, exceptions and the string operations the source uses *)

Module Py.

Record exn : Type := Exn { exc_type : string; exc_msg : string }.

(** [str(e)] *)
Definition str_exn (e : exn) : string := exc_msg e.

Inductive res (A : Type) : Type :=
| Ok (a : A)
| Raise (e : exn).
Arguments Ok {A} a.
Arguments Raise {A} e.

Definition is_ok {A} (r : res A) : bool :=
  match r with Ok _ => true | Raise _ => false end.

(** The values a [metadata] entry holds here: an [int] or a [str]. *)
Inductive PyVal : Type :=
| PInt (z : Z)
| PStr (s : string).

Definition PyVal_eqb (a b : PyVal) : bool :=
  match a, b with
  | PInt x, PInt y => Z.eqb x y
  | PStr x, PStr y => String.eqb x y
  | _, _ => false
  end.

Definition str_of_Z (z : Z) : string := NilZero.string_of_int (Z.to_int z).
Definition str_of_nat (n : nat) : string := str_of_Z (Z.of_nat n).

(** [str(v)], also what an f-string prints for [{v}] *)
Definition str (v : PyVal) : string :=
  match v with
  | PInt z => str_of_Z z
  | PStr s => s
  end.

Definition type_name (v : PyVal) : string :=
  match v with
  | PInt _ => "int"
  | PStr _ => "str"
  end.

(** [a < b]: defined inside one type only. *)
Definition lt (a b : PyVal) : res bool :=
  match a, b with
  | PInt x, PInt y => Ok (Z.ltb x y)
  | PStr x, PStr y => Ok (String.ltb x y)
  | _, _ =>
      Raise (Exn "TypeError"
               ("'<' not supported between instances of '" ++ type_name a
                  ++ "' and '" ++ type_name b ++ "'"))
  end.

(** [set(l)]: the distinct elements.  The iteration order of a Python set is
    not specified; the source only ever sorts it. *)
Fixpoint set (l : list PyVal) : list PyVal :=
  match l with
  | [] => []
  | x :: l' => if existsb (PyVal_eqb x) l' then set l' else x :: set l'
  end.

Fixpoint insert (x : PyVal) (l : list PyVal) : res (list PyVal) :=
  match l with
  | [] => Ok [x]
  | y :: l' =>
      match lt x y with
      | Raise e => Raise e
      | Ok true => Ok (x :: l)
      | Ok false =>
          match insert x l' with
          | Raise e => Raise e
          | Ok r => Ok (y :: r)
          end
      end
  end.

(** [sorted(l)] on distinct elements: ascending when the elements are
    mutually comparable, [TypeError] as soon as two elements of different
    types are compared.  The message names the two types in the order in
    which this sort meets them.  In the source that order follows the
    iteration order of the set, which for strings depends on the hash seed
    of the process: the same exception may name the two types the other
    way round.  Whether it is raised does not depend on the order. *)
Fixpoint sorted (l : list PyVal) : res (list PyVal) :=
  match l with
  | [] => Ok []
  | x :: l' =>
      match sorted l' with
      | Raise e => Raise e
      | Ok r => insert x r
      end
  end.

(** [c.isspace()] and the regular expression class [\s], on the 8-bit
    range: U+0009..U+000D, U+001C..U+0020, U+0085, U+00A0. *)
Definition is_space (c : ascii) : bool :=
  let n := nat_of_ascii c in
  (((9 <=? n) && (n <=? 13)) || ((28 <=? n) && (n <=? 32))
   || (n =? 133) || (n =? 160))%nat.

Definition is_empty (s : string) : bool :=
  match s with EmptyString => true | String _ _ => false end.

Fixpoint lstrip (s : string) : string :=
  match s with
  | EmptyString => EmptyString
  | String c s' => if is_space c then lstrip s' else s
  end.

Fixpoint rstrip (s : string) : string :=
  match s with
  | EmptyString => EmptyString
  | String c s' =>
      let r := rstrip s' in
      if is_space c && is_empty r then EmptyString else String c r
  end.

(** [s.strip()] *)
Definition strip (s : string) : string := rstrip (lstrip s).

(** [s.split(sep)] for a one-character separator: never an empty list. *)
Fixpoint split (sep : ascii) (s : string) : list string :=
  match s with
  | EmptyString => [EmptyString]
  | String c s' =>
      if Ascii.eqb c sep then EmptyString :: split sep s'
      else match split sep s' with
           | [] => [String c EmptyString]
           | piece :: pieces => String c piece :: pieces
           end
  end.

(** [re.sub(r'\s+', ' ', s)]: every maximal run of whitespace becomes one
    space. *)
Fixpoint sub_spaces (s : string) : string :=
  match s with
  | EmptyString => EmptyString
  | String c s' =>
      if is_space c then
        match s' with
        | EmptyString => String " " EmptyString
        | String c' _ =>
            if is_space c' then sub_spaces s' else String " " (sub_spaces s')
        end
      else String c (sub_spaces s')
  end.

(** [s[:n]] *)
Definition prefix (n : nat) (s : string) : string := substring 0 n s.

(** [sep.join(l)] *)
Definition join (sep : string) (l : list string) : string := String.concat sep l.

(** Whether every character of [s] is an ASCII character. *)
Fixpoint is_ascii (s : string) : bool :=
  match s with
  | EmptyString => true
  | String c s' => (nat_of_ascii c <? 128)%nat && is_ascii s'
  end.

(** The double-quote character, as a one-character string. *)
Definition dquote : string := String "034"%char EmptyString.

End Py.

Import Py.

(** ** Data model *)

(** A retrieved document: its text and its [metadata] dict. *)
Record Document : Type := {
  page_content : string;
  metadata : list (string * PyVal)
}.

(** [d.get(key, default)] *)
Fixpoint dict_get (d : list (string * PyVal)) (key : string) (default : PyVal)
  : PyVal :=
  match d with
  | [] => default
  | (k, v) :: d' => if String.eqb k key then v else dict_get d' key default
  end.

(** What [generate_content] returns.  The source reads its [text], an
    accessor of the library that raises [ValueError] when the response
    carries no text (a blocked or an empty response). *)
Record Response : Type := { text : res string }.

(** The dictionary [query] returns. *)
Record AnswerResult : Type := {
  answer : string;
  source_documents : list Document
}.

(** The handle [PineconeVectorStore.from_existing_index] gives. *)
Record VectorStore : Type := { store_index : string }.

(** Calls to the hosted services, as a mock of them would record them. *)
Inductive Call : Type :=
| ListIndexes
| FromExistingIndex (name : string)
| SimilaritySearch (question : string) (k : nat)
| GenerateContent (prompt : string).

(** One call as a mock records it: when it was issued, what was called,
    whether it returned (rather than raised), and when it ended. *)
Record CallRecord : Type := {
  issued : Q;
  call : Call;
  returned : bool;
  finished : Q
}.

Inductive Level : Type := INFO | ERROR.

(** The state outside the chatbot object: the wall clock, the calls made so
    far (oldest first), the records of [logger] and the lines written by
    [print]. *)
Record World : Type := {
  now : Q;
  calls : list CallRecord;
  logs : list (Level * string);
  stdout : list string
}.

(** The process environment and the hosted services. *)
Record Env : Type := {
  PINECONE_API_KEY : option string;
  PINECONE_INDEX_NAME : option string;
  GOOGLE_API_KEY : option string;
  list_indexes : Q -> list CallRecord -> res (list string);
  from_existing_index :
    Q -> list CallRecord -> string -> res (option VectorStore);
  similarity_search :
    Q -> list CallRecord -> string -> nat -> res (list Document);
  generate_content : Q -> list CallRecord -> string -> res Response;
  latency : Q -> list CallRecord -> Call -> Q
}.

Record VectorStoreManager : Type := { index_name : string }.

(** The fields of [SmartLegalChatbot].  [vector_store] is [None] until
    [initialize] assigns it. *)
Record Chatbot : Type := {
  vector_manager : VectorStoreManager;
  client : option string;
  model_name : string;
  _initialized : bool;
  last_call_time : Q;
  min_call_interval : Q;
  vector_store : option VectorStore
}.

Definition set_client (c : option string) (s : Chatbot) : Chatbot :=
  {| vector_manager := vector_manager s; client := c;
     model_name := model_name s; _initialized := _initialized s;
     last_call_time := last_call_time s;
     min_call_interval := min_call_interval s;
     vector_store := vector_store s |}.

Definition set_initialized (b : bool) (s : Chatbot) : Chatbot :=
  {| vector_manager := vector_manager s; client := client s;
     model_name := model_name s; _initialized := b;
     last_call_time := last_call_time s;
     min_call_interval := min_call_interval s;
     vector_store := vector_store s |}.

Definition set_last_call_time (t : Q) (s : Chatbot) : Chatbot :=
  {| vector_manager := vector_manager s; client := client s;
     model_name := model_name s; _initialized := _initialized s;
     last_call_time := t;
     min_call_interval := min_call_interval s;
     vector_store := vector_store s |}.

Definition set_vector_store (v : option VectorStore) (s : Chatbot) : Chatbot :=
  {| vector_manager := vector_manager s; client := client s;
     model_name := model_name s; _initialized := _initialized s;
     last_call_time := last_call_time s;
     min_call_interval := min_call_interval s;
     vector_store := v |}.

(** ** Computations: chatbot state, external state, exceptions *)

Definition M (A : Type) : Type := Chatbot -> World -> res A * Chatbot * World.

Definition ret {A} (a : A) : M A := fun s w => (Ok a, s, w).

Definition raise {A} (e : exn) : M A := fun s w => (Raise e, s, w).

Definition bind {A B} (m : M A) (k : A -> M B) : M B :=
  fun s w =>
    match m s w with
    | (Ok a, s', w') => k a s' w'
    | (Raise e, s', w') => (Raise e, s', w')
    end.

(** [try: body except Exception as e: handler e].  What [body] changed before
    it raised stays changed. *)
Definition try_except {A} (body : M A) (handler : exn -> M A) : M A :=
  fun s w =>
    match body s w with
    | (Ok a, s', w') => (Ok a, s', w')
    | (Raise e, s', w') => handler e s' w'
    end.

(** A pure computation that may raise. *)
Definition lift {A} (r : res A) : M A := fun s w => (r, s, w).

Declare Scope py_scope.
Delimit Scope py_scope with py.
Notation "x <- m ;; k" := (bind m (fun x => k))
  (at level 100, m at next level, right associativity) : py_scope.
Notation "m ;; k" := (bind m (fun _ => k))
  (at level 100, right associativity) : py_scope.
Open Scope py_scope.

Definition value {A} (o : res A * Chatbot * World) : res A := fst (fst o).
Definition bot {A} (o : res A * Chatbot * World) : Chatbot := snd (fst o).
Definition world {A} (o : res A * Chatbot * World) : World := snd o.

Definition self : M Chatbot := fun s w => (Ok s, s, w).

Definition update (f : Chatbot -> Chatbot) : M unit :=
  fun s w => (Ok tt, f s, w).

(** The external state after a log record, a printed line, a wait, a call. *)
Definition logged (lvl : Level) (msg : string) (w : World) : World :=
  {| now := now w; calls := calls w;
     logs := logs w ++ [(lvl, msg)]; stdout := stdout w |}.

Definition printed (msg : string) (w : World) : World :=
  {| now := now w; calls := calls w;
     logs := logs w; stdout := stdout w ++ [msg] |}.

Definition slept (d : Q) (w : World) : World :=
  {| now := (now w + d)%Q; calls := calls w;
     logs := logs w; stdout := stdout w |}.

Definition answered (c : Call) (ok : bool) (d : Q) (w : World) : World :=
  {| now := (now w + d)%Q;
     calls := calls w ++ [{| issued := now w; call := c;
                             returned := ok; finished := (now w + d)%Q |}];
     logs := logs w; stdout := stdout w |}.

(** [logger.info(msg)], [logger.error(msg)] *)
Definition logger (lvl : Level) (msg : string) : M unit :=
  fun s w => (Ok tt, s, logged lvl msg w).

(** [print(msg)] in the methods of [VectorStoreManager], whose lines the
    console is taken to encode. *)
Definition print (msg : string) : M unit :=
  fun s w => (Ok tt, s, printed msg w).

(** [time.time()] *)
Definition time_time : M Q := fun s w => (Ok (now w), s, w).

(** [time.sleep(d)] *)
Definition time_sleep (d : Q) : M unit :=
  fun s w => (Ok tt, s, slept d w).

Definition nl : string := String "010"%char EmptyString.

(** ** The program *)

Section Program.

Context (env : Env).

(** A call to a hosted service: it is answered from the time and the
    calls made so far, takes the latency the environment gives, and is
    recorded. *)
Definition invoke {A} (c : Call)
  (service : Q -> list CallRecord -> res A) : M A :=
  fun s w =>
    let r := service (now w) (calls w) in
    (r, s, answered c (is_ok r) (latency env (now w) (calls w) c) w).

(** [not v] for a [str] environment value that may be unset *)
Definition not_set (v : option string) : bool :=
  match v with
  | None => true
  | Some k => is_empty k
  end.

(** *** vector_store.py *)

(** [VectorStoreManager.__init__] *)
Definition new_manager : res VectorStoreManager :=
  if not_set (PINECONE_API_KEY env)
  then Raise (Exn "ValueError"
                "PINECONE_API_KEY not found in environment variables")
  else Ok {| index_name :=
               match PINECONE_INDEX_NAME env with
               | Some name => name
               | None => "indian-constitution-ipc"
               end |}.

(** [name in self.pc.list_indexes().names()] *)
Definition listed (name : string) : M bool :=
  names <- invoke ListIndexes (list_indexes env) ;;
  ret (existsb (String.eqb name) names).

Definition check_index_exists (vm : VectorStoreManager) : M bool :=
  try_except
    (listed (index_name vm))
    (fun e =>
       print ("Error checking index existence: " ++ str_exn e) ;;
       ret false).

Definition get_vector_store (vm : VectorStoreManager)
  : M (option VectorStore) :=
  try_except
    (print "Loading Pinecone vector store..." ;;
     found <- listed (index_name vm) ;;
     if negb found
     then raise (Exn "Exception"
                   "No vector store found. Please create vector store first.")
     else
       vector_store <-
         invoke (FromExistingIndex (index_name vm))
           (fun t h => from_existing_index env t h (index_name vm)) ;;
       print "Pinecone vector store loaded successfully!" ;;
       ret vector_store)
    (fun e =>
       raise (Exn "Exception" ("Failed to get vector store: " ++ str_exn e))).

(** *** chatbot.py: [SmartLegalChatbot] *)

(** [__init__] *)
Definition new_chatbot : res Chatbot :=
  match new_manager with
  | Raise e => Raise e
  | Ok vm =>
      Ok {| vector_manager := vm;
            client := None;
            model_name := "gemini-2.0-flash";
            _initialized := false;
            last_call_time := 0%Q;
            min_call_interval := 1%Q;
            vector_store := None |}
  end.

(** [self.client.generate_content(prompt)] *)
Definition client_generate_content (prompt : string) : M Response :=
  s <- self ;;
  match client s with
  | None =>
      raise (Exn "AttributeError"
               "'NoneType' object has no attribute 'generate_content'")
  | Some _ =>
      invoke (GenerateContent prompt)
        (fun t h => generate_content env t h prompt)
  end.

(** [self.vector_store.similarity_search(question, k=k)] *)
Definition vector_store_similarity_search (question : string) (k : nat)
  : M (list Document) :=
  s <- self ;;
  match vector_store s with
  | None =>
      raise (Exn "AttributeError"
               "'SmartLegalChatbot' object has no attribute 'vector_store'")
  | Some _ =>
      invoke (SimilaritySearch question k)
        (fun t h => similarity_search env t h question k)
  end.

Definition initialize : M bool :=
  s <- self ;;
  if _initialized s then ret true
  else
    try_except
      (logger INFO "Step 1: Loading Pinecone vector store..." ;;
       found <- check_index_exists (vector_manager s) ;;
       if negb found
       then raise (Exn "Exception"
              "Pinecone index not found. Please initialize vector store first.")
       else
         store <- get_vector_store (vector_manager s) ;;
         update (set_vector_store store) ;;
         match store with
         | None =>
             raise (Exn "Exception" "Pinecone vector store could not be loaded")
         | Some _ =>
             logger INFO "✓ Pinecone vector store loaded successfully" ;;
             logger INFO "Step 2: Initializing Gemini client..." ;;
             if not_set (GOOGLE_API_KEY env)
             then raise (Exn "ValueError"
                           "GOOGLE_API_KEY not found in environment variables")
             else
               update (set_client (Some (model_name s))) ;;
               test_response <- client_generate_content "Say hello" ;;
               logger INFO ("✓ Gemini initialized successfully with model: "
                              ++ model_name s) ;;
               update (set_initialized true) ;;
               logger INFO "✓ Smart Legal Chatbot fully initialized" ;;
               ret true
         end)
      (fun e =>
         logger ERROR ("Initialization failed: " ++ str_exn e) ;;
         ret false).

(** [doc.metadata.get('page', 'N/A')] *)
Definition page_of (doc : Document) : PyVal :=
  dict_get (metadata doc) "page" (PStr "N/A").

(** The loop of [_summarize_content]: [summary] grows by whole sentences
    until one is blank or would reach [max_length]. *)
Fixpoint take_sentences (sentences : list string) (summary : string)
  (max_length : nat) : string :=
  match sentences with
  | [] => summary
  | sentence :: rest =>
      if negb (is_empty (strip sentence))
         && (String.length (summary ++ sentence) <? max_length)%nat
      then take_sentences rest (summary ++ sentence ++ ". ") max_length
      else summary
  end.

Definition _summarize_content (content : string) (max_length : nat) : string :=
  if (String.length content <=? max_length)%nat then content
  else
    let sentences := split "." content in
    let summary := strip (take_sentences sentences "" max_length) in
    if (String.length summary <? String.length content)%nat
    then summary ++ ".."
    else summary.

(** The three dictionaries [_fallback_approach] returns. *)
Definition document_digest (question : string) (docs : list Document)
  : AnswerResult :=
  let answer_parts :=
    List.app
      ["**🔍 Legal Document References:**" ++ nl]
      (List.app
         (map (fun doc =>
                 let page := page_of doc in
                 let content := _summarize_content (page_content doc) 150 in
                 "• **Page " ++ str page ++ ":** " ++ content)
            docs)
         [nl ++ "**Question:** " ++ question;
          nl ++ "*Please review the above document references for relevant information.*"])
  in
  {| answer := join nl answer_parts; source_documents := docs |}.

Definition no_documents_found (question : string) : AnswerResult :=
  {| answer :=
       "**🤖 Legal Assistant**" ++ nl ++ nl
         ++ "I understand you're asking about: "
         ++ dquote ++ question ++ dquote ++ nl ++ nl
         ++ "While I couldn't find specific documents in the database, this appears to be a question about Indian law. Please ensure your question relates to Indian Constitution or IPC, and try again.";
     source_documents := [] |}.

Definition system_unavailable : AnswerResult :=
  {| answer :=
       "**⚠️ System Temporarily Unavailable**" ++ nl ++ nl
         ++ "Please try again in a moment.";
     source_documents := [] |}.

Definition _fallback_approach (question : string) : M AnswerResult :=
  try_except
    (docs <- vector_store_similarity_search question 3 ;;
     match docs with
     | _ :: _ => ret (document_digest question docs)
     | [] => ret (no_documents_found question)
     end)
    (fun e => ret system_unavailable).

Definition _format_direct_answer (answer question : string) : string :=
  answer ++ nl ++ nl
    ++ "---" ++ nl
    ++ "**💡 Note:** This answer is generated using general legal knowledge. "
    ++ "For specific document references, ensure relevant content is available in the legal database."
    ++ nl.

Definition _format_rag_answer (answer : string) (docs : list Document)
  : res string :=
  match sorted (set (map page_of docs)) with
  | Raise e => Raise e
  | Ok unique_pages =>
      Ok (answer ++ nl ++ nl
            ++ "---" ++ nl
            ++ "**📚 Source Information:**" ++ nl
            ++ "• **Source:** Pinecone Legal Database" ++ nl
            ++ "• **Relevant Pages:** "
            ++ join ", " (map str (firstn 5 unique_pages)) ++ nl
            ++ "• **Documents Analyzed:** " ++ str_of_nat (length docs) ++ nl)
  end.

Definition _create_direct_prompt (question : string) : string :=
  "You are an expert legal assistant specializing in Indian Constitution and Indian Penal Code (IPC).

**USER QUESTION:**
" ++ question ++ "

**INSTRUCTIONS:**
Provide a comprehensive, accurate answer about Indian Constitution or IPC. Use your knowledge of:

- Indian Constitution (Fundamental Rights, Directive Principles, Constitutional Provisions)
- Indian Penal Code (Sections, Punishments, Legal Definitions)
- Important legal doctrines and principles
- Recent legal developments if relevant

Structure your answer with:
1. Clear definition/explanation
2. Key legal provisions (mention specific Articles/Sections)
3. Important aspects and implications
4. Practical significance

Use Markdown formatting for better readability.

**ANSWER:**
".

Definition _create_rag_prompt (question context : string) : string :=
  "You are an expert legal assistant for Indian Constitution and IPC.

**LEGAL DOCUMENTS CONTEXT:**
" ++ context ++ "

**USER QUESTION:**
" ++ question ++ "

**INSTRUCTIONS:**
Answer the question using the legal documents provided above. Provide a comprehensive legal analysis with proper citations.

**ANSWER:**
".

(** The loop of [_prepare_context]; [i] is the index [enumerate] gives. *)
Fixpoint context_entries (i : nat) (docs : list Document) : list string :=
  match docs with
  | [] => []
  | doc :: rest =>
      let page := page_of doc in
      let content := page_content doc in
      let content := strip (sub_spaces content) in
      let content :=
        if (400 <? String.length content)%nat
        then prefix 400 content ++ "..."
        else content in
      ("**Document " ++ str_of_nat (i + 1) ++ "** (Page " ++ str page
         ++ "): " ++ content)
        :: context_entries (S i) rest
  end.

Definition _prepare_context (docs : list Document) : string :=
  let context_parts :=
    ("**RELEVANT LEGAL DOCUMENTS FROM DATABASE:**" ++ nl)
      :: context_entries 0 docs in
  join (nl ++ nl) context_parts.

Definition _direct_gemini_approach (question : string) : M AnswerResult :=
  try_except
    (let prompt := _create_direct_prompt question in
     response <- client_generate_content prompt ;;
     t <- time_time ;;
     update (set_last_call_time t) ;;
     answer <- lift (text response) ;;
     let formatted_answer := _format_direct_answer answer question in
     logger INFO "✓ Direct Gemini approach successful" ;;
     ret {| answer := formatted_answer; source_documents := [] |})
    (fun e =>
       logger ERROR ("Direct Gemini approach failed: " ++ str_exn e) ;;
       _fallback_approach question).

Definition _rag_approach (question : string) (docs : list Document)
  : M AnswerResult :=
  try_except
    (let context := _prepare_context docs in
     let prompt := _create_rag_prompt question context in
     response <- client_generate_content prompt ;;
     t <- time_time ;;
     update (set_last_call_time t) ;;
     answer <- lift (text response) ;;
     formatted_answer <- lift (_format_rag_answer answer docs) ;;
     logger INFO "✓ RAG approach successful" ;;
     ret {| answer := formatted_answer; source_documents := docs |})
    (fun e =>
       logger ERROR ("RAG approach failed: " ++ str_exn e) ;;
       _direct_gemini_approach question).

Definition _has_relevant_documents (question : string) (docs : list Document)
  : M bool :=
  match docs with
  | [] => ret false
  | _ :: _ =>
      logger INFO ("Using RAG with " ++ str_of_nat (length docs)
                     ++ " documents found") ;;
      ret true
  end.

Definition initialization_failed : AnswerResult :=
  {| answer :=
       "**❌ System Initialization Failed**" ++ nl ++ nl
         ++ "Please check your setup and try again.";
     source_documents := [] |}.

(** The rate limiting at the head of [query]. *)
Definition rate_limit : M unit :=
  current_time <- time_time ;;
  s <- self ;;
  let time_since_last_call := (current_time - last_call_time s)%Q in
  if Qlt_le_dec time_since_last_call (min_call_interval s)
  then time_sleep (min_call_interval s - time_since_last_call)%Q
  else ret tt.

(** The [try] block of [query]. *)
Definition query_body (question : string) : M AnswerResult :=
  rate_limit ;;
  logger INFO ("Processing question: " ++ question) ;;
  logger INFO "Searching Pinecone for relevant documents..." ;;
  docs <- vector_store_similarity_search question 6 ;;
  has_relevant_docs <- _has_relevant_documents question docs ;;
  if has_relevant_docs
  then
    logger INFO "Found relevant documents, using RAG approach..." ;;
    _rag_approach question docs
  else
    logger INFO "No highly relevant documents found, using direct Gemini approach..." ;;
    _direct_gemini_approach question.

Definition query (question : string) : M AnswerResult :=
  s <- self ;;
  success <- (if negb (_initialized s) then initialize else ret true) ;;
  if negb success then ret initialization_failed
  else
    try_except
      (query_body question)
      (fun e =>
         logger ERROR ("Query failed: " ++ str_exn e) ;;
         _fallback_approach question).

End Program.

(** ** The rest of the two files *)

Section Rest.

Context (env : Env).

(** *** vector_store.py: [search_documents] *)

(** [vector_store.similarity_search(query, k=k)] on what [get_vector_store]
    returned. *)
Definition store_similarity_search (store : option VectorStore)
  (text_query : string) (k : nat) : M (list Document) :=
  match store with
  | None =>
      raise (Exn "AttributeError"
               "'NoneType' object has no attribute 'similarity_search'")
  | Some _ =>
      invoke env (SimilaritySearch text_query k)
        (fun t h => similarity_search env t h text_query k)
  end.

Definition search_documents (vm : VectorStoreManager) (text_query : string)
  (k : nat) : M (list Document) :=
  try_except
    (vector_store <- get_vector_store env vm ;;
     results <- store_similarity_search vector_store text_query k ;;
     ret results)
    (fun e =>
       print ("Search error: " ++ str_exn e) ;;
       ret []).

End Rest.

(** *** chatbot.py: [ConstitutionChatbot] *)

Module ConstitutionChatbot.

(** The fields of the wrapper: the orchestrator it owns and its own flag
    (the source calls both flags [_initialized]). *)
Record t : Type := {
  chatbot : Chatbot;
  _initialized' : bool
}.

(** Computations on a wrapper. *)
Definition W (A : Type) : Type := t -> World -> res A * t * World.

(** [__init__], given the orchestrator [SmartLegalChatbot()] built. *)
Definition init (inner : Chatbot) : t :=
  {| chatbot := inner; _initialized' := false |}.

Definition initialize_qa_chain (env : Env) : W bool :=
  fun c w =>
    if _initialized' c then (Ok true, c, w)
    else
      match initialize env (chatbot c) w with
      | (Ok success, inner, w') =>
          (Ok success, {| chatbot := inner; _initialized' := success |}, w')
      | (Raise e, inner, w') =>
          (Raise e, {| chatbot := inner; _initialized' := _initialized' c |}, w')
      end.

Definition query (env : Env) (question : string) : W AnswerResult :=
  fun c w =>
    match query env question (chatbot c) w with
    | (r, inner, w') =>
        (r, {| chatbot := inner; _initialized' := _initialized' c |}, w')
    end.

End ConstitutionChatbot.

(** *** The two module-level singletons *)

(** The embeddings model [HuggingFaceEmbeddings] builds. *)
Record Embeddings : Type := { embeddings_model : string }.

(** The globals [_embeddings] (vector_store.py) and [_chatbot_instance]
    (chatbot.py). *)
Record Globals : Type := {
  _embeddings : option Embeddings;
  _chatbot_instance : option ConstitutionChatbot.t
}.

(** Computations on the globals. *)
Definition G (A : Type) : Type := Globals -> World -> res A * Globals * World.

Section Singletons.

Context (env : Env).

(** The constructor [HuggingFaceEmbeddings(...)]: it may fail, and answers
    from the time and the calls made so far like the hosted services. *)
Context (HuggingFaceEmbeddings : Q -> list CallRecord -> res Embeddings).

(** The console behind [sys.stdout]: given a text with symbols outside
    ASCII it either encodes it or raises its [UnicodeEncodeError]. *)
Context (console : string -> res unit).

(** [print(msg)] in these two functions: a line of ASCII characters is
    always written; any other line is written if the console can encode
    it, and otherwise [print] raises what the console raises and writes
    nothing. *)
Definition console_print (msg : string) : G unit :=
  fun g w =>
    if is_ascii msg then (Ok tt, g, printed msg w)
    else
      match console msg with
      | Ok _ => (Ok tt, g, printed msg w)
      | Raise e => (Raise e, g, w)
      end.

(** The global is assigned as soon as the constructor has returned, before
    the second line is printed. *)
Definition get_embeddings : G Embeddings :=
  fun g w =>
    match _embeddings g with
    | Some model => (Ok model, g, w)
    | None =>
        match console_print "Loading embeddings model..." g w with
        | (Raise e, g0, w0) => (Raise e, g0, w0)
        | (Ok _, g0, w0) =>
            match HuggingFaceEmbeddings (now w0) (calls w0) with
            | Raise e => (Raise e, g0, w0)
            | Ok model =>
                let g1 := {| _embeddings := Some model;
                             _chatbot_instance := _chatbot_instance g0 |} in
                match console_print "✓ Embeddings model loaded" g1 w0 with
                | (Raise e, g2, w2) => (Raise e, g2, w2)
                | (Ok _, g2, w2) => (Ok model, g2, w2)
                end
            end
        end
    end.

(** [SmartLegalChatbot()]: its [VectorStoreManager()] first asks for the
    embeddings, then reads the environment. *)
Definition SmartLegalChatbot_new : G Chatbot :=
  fun g w =>
    match get_embeddings g w with
    | (Ok _, g', w') => (new_chatbot env, g', w')
    | (Raise e, g', w') => (Raise e, g', w')
    end.

(** [get_chatbot()].  The object it returns is the one [_chatbot_instance]
    holds. *)
Definition get_chatbot : G ConstitutionChatbot.t :=
  fun g w =>
    match _chatbot_instance g with
    | Some instance => (Ok instance, g, w)
    | None =>
        let w1 := logged INFO "Creating new ConstitutionChatbot instance..." w in
        match SmartLegalChatbot_new g w1 with
        | (Ok inner, g', w') =>
            let instance := ConstitutionChatbot.init inner in
            (Ok instance,
             {| _embeddings := _embeddings g';
                _chatbot_instance := Some instance |},
             w')
        | (Raise e, g', w') => (Raise e, g', w')
        end
    end.

End Singletons.

(** ** Vocabulary of the statements *)

(** An orchestrator as [initialize] leaves it on success: the flag is set and
    both handles are in place. *)
Definition ready (s : Chatbot) : bool :=
  _initialized s
  && match vector_store s with Some _ => true | None => false end
  && match client s with Some _ => true | None => false end.

(** A computation that ends with a value from every state. *)
Definition never_raises {A} (m : M A) : Prop :=
  forall s w, exists a, value (m s w) = Ok a.

(** The external state [rate_limit] leaves: the caller has slept for what was
    missing of [min_call_interval] since [last_call_time], if anything. *)
Definition waited (s : Chatbot) (w : World) : World :=
  if Qlt_le_dec (now w - last_call_time s) (min_call_interval s)
  then slept (min_call_interval s - (now w - last_call_time s)) w
  else w.

(** The external state when [query] issues its search: after the wait and the
    two records it logs first. *)
Definition at_search (question : string) (s : Chatbot) (w : World) : World :=
  logged INFO "Searching Pinecone for relevant documents..."
    (logged INFO ("Processing question: " ++ question) (waited s w)).

(** The answers of the services at the moment [w], and the external state
    once a call made at [w] has ended. *)
Definition search_at (env : Env) (w : World) (question : string) (k : nat)
  : res (list Document) :=
  similarity_search env (now w) (calls w) question k.

Definition generate_at (env : Env) (w : World) (prompt : string)
  : res Response :=
  generate_content env (now w) (calls w) prompt.

Definition listing_at (env : Env) (w : World) : res (list string) :=
  list_indexes env (now w) (calls w).

Definition after_call {A} (env : Env) (c : Call) (r : res A) (w : World)
  : World :=
  answered c (is_ok r) (latency env (now w) (calls w) c) w.

(** What each path makes of the response it got: the formatted answer, or
    the exception raised while reading the text of the response or, on the
    RAG path, while building the footer. *)
Definition rag_answer_of (response : Response) (docs : list Document)
  : res string :=
  match text response with
  | Ok generated => _format_rag_answer generated docs
  | Raise e => Raise e
  end.

Definition direct_answer_of (response : Response) (question : string)
  : res string :=
  match text response with
  | Ok generated => Ok (_format_direct_answer generated question)
  | Raise e => Raise e
  end.

(** The calls a computation made: those recorded after the ones [w] already
    holds. *)
Definition calls_since {A} (w : World) (o : res A * Chatbot * World)
  : list CallRecord :=
  skipn (length (calls w)) (calls (world o)).

(** What a mock shows of a call: what was called and whether it returned. *)
Definition seen (r : CallRecord) : Call * bool := (call r, returned r).

Definition is_generation (c : Call) : bool :=
  match c with GenerateContent _ => true | _ => false end.

Definition is_search (c : Call) : bool :=
  match c with SimilaritySearch _ _ => true | _ => false end.

(** What a mock sees of a query: each call with whether it returned. *)
Definition observed (env : Env) (question : string) (s : Chatbot) (w : World)
  : list (Call * bool) :=
  map seen (calls_since w (query env question s w)).

(** What the orchestrator got from the call recorded as [r], made after the
    calls [h]: from a generation call, whether it returned a response whose
    text can be read; from any other call, whether it returned. *)
Definition delivered_by (env : Env) (h : list CallRecord) (r : CallRecord)
  : bool :=
  match call r with
  | GenerateContent prompt =>
      match generate_content env (issued r) h prompt with
      | Ok response => is_ok (text response)
      | Raise _ => false
      end
  | _ => returned r
  end.

Fixpoint delivered (env : Env) (h rs : list CallRecord) : list (Call * bool) :=
  match rs with
  | [] => []
  | r :: rs' => (call r, delivered_by env h r) :: delivered env (h ++ [r]) rs'
  end.

(** What the orchestrator got from each call of a query: as [observed], but
    a generation call counts only if its text could be read. *)
Definition obtained (env : Env) (question : string) (s : Chatbot) (w : World)
  : list (Call * bool) :=
  delivered env (calls w) (calls_since w (query env question s w)).

(** The direct path and what follows it, as [observed] and as [obtained]:
    its generation call, and the reduced search of the terminal stage when
    the call raised or its response could not be read. *)
Definition direct_stage (question : string) (trace texts : list (Call * bool))
  : Prop :=
  let S3 := SimilaritySearch question 3 in
  let D := GenerateContent (_create_direct_prompt question) in
  (trace = [(D, true)] /\ texts = [(D, true)])
  \/ (exists b, trace = [(D, true); (S3, b)] /\ texts = [(D, false); (S3, b)])
  \/ (exists b, trace = [(D, false); (S3, b)] /\ texts = [(D, false); (S3, b)]).

(** The value of [last_call_time] a sequence of calls leaves behind when the
    timestamp is taken at the end of each generation call that returned. *)
Fixpoint stamp (t : Q) (rs : list CallRecord) : Q :=
  match rs with
  | [] => t
  | r :: rs' =>
      stamp (if is_generation (call r) && returned r then finished r else t) rs'
  end.

(** [docs] is what some search for [question] with limit [k] returned. *)
Definition retrieved (env : Env) (question : string) (k : nat)
  (docs : list Document) : Prop :=
  exists t h, similarity_search env t h question k = Ok docs.

(** The shapes of answer [query] can return. *)
Inductive Outcome (env : Env) (question : string) : AnswerResult -> Prop :=
| Out_init_failed : Outcome env question initialization_failed
| Out_rag (generated formatted : string) (docs : list Document) :
    retrieved env question 6 docs ->
    docs <> [] ->
    _format_rag_answer generated docs = Ok formatted ->
    Outcome env question {| answer := formatted; source_documents := docs |}
| Out_direct (generated : string) :
    Outcome env question
      {| answer := _format_direct_answer generated question;
         source_documents := [] |}
| Out_digest (docs : list Document) :
    retrieved env question 3 docs ->
    docs <> [] ->
    Outcome env question (document_digest question docs)
| Out_no_documents : Outcome env question (no_documents_found question)
| Out_unavailable : Outcome env question system_unavailable.

(** A computation that never moves the clock back and issues its calls no
    earlier than it started: whatever bound [t] the clock had passed when it
    started, the clock is still past it at the end and so is every call it
    made. *)
Definition keeps_pace {A} (m : M A) : Prop :=
  forall (t : Q) (s : Chatbot) (w : World),
    (t <= now w)%Q ->
    (t <= now (world (m s w)))%Q
    /\ exists l,
        calls (world (m s w)) = (calls w ++ l)%list
        /\ Forall (fun r => (t <= issued r)%Q) l.

(** The calls [rs] were made back to back from time [t] to time [t']: the
    first was issued at [t], each of the others at the very moment the call
    before it ended, and the last one ended at [t'].  No time passed
    between them. *)
Fixpoint back_to_back (t : Q) (rs : list CallRecord) (t' : Q) : Prop :=
  match rs with
  | [] => t = t'
  | r :: rs' => issued r = t /\ back_to_back (finished r) rs' t'
  end.

(** A computation that never waits: from every state, the clock moves only
    while one of its calls to a hosted service is in progress. *)
Definition never_waits {A} (m : M A) : Prop :=
  forall (s : Chatbot) (w : World),
    exists l,
      calls (world (m s w)) = (calls w ++ l)%list
      /\ back_to_back (now w) l (now (world (m s w))).

(** A computation that ends, from every state, with a result satisfying
    [P]. *)
Definition yields {A} (P : A -> Prop) (m : M A) : Prop :=
  forall s w, exists a, value (m s w) = Ok a /\ P a.

(** ** Scripted environments, for concrete runs *)

Definition calls_so_far (p : Call -> bool) (h : list CallRecord) : nat :=
  length (filter (fun r => p (call r)) h).

(** The [n]-th answer of a script; a script that ran out raises. *)
Definition scripted {A} (script : list (res A)) (n : nat) : res A :=
  nth n script (Raise (Exn "StopIteration" "")).

Definition the_index : string := "indian-constitution-ipc".

(** An environment whose index exists, whose searches and generations answer
    from the given scripts, and whose calls all take [delay]. *)
Definition mock (searches : list (res (list Document)))
  (generations : list (res Response)) (delay : Q) : Env :=
  {| PINECONE_API_KEY := Some "pinecone-key";
     PINECONE_INDEX_NAME := None;
     GOOGLE_API_KEY := Some "google-key";
     list_indexes := fun _ _ => Ok [the_index];
     from_existing_index := fun _ _ name => Ok (Some {| store_index := name |});
     similarity_search :=
       fun _ h _ _ => scripted searches (calls_so_far is_search h);
     generate_content :=
       fun _ h _ => scripted generations (calls_so_far is_generation h);
     latency := fun _ _ _ => delay |}.

(** An initialized orchestrator whose last generation call ended at [t]. *)
Definition ready_bot (t : Q) : Chatbot :=
  {| vector_manager := {| index_name := the_index |};
     client := Some "gemini-2.0-flash";
     model_name := "gemini-2.0-flash";
     _initialized := true;
     last_call_time := t;
     min_call_interval := 1%Q;
     vector_store := Some {| store_index := the_index |} |}.

(** A process that has made no call yet, at time [t]. *)
Definition at_time (t : Q) : World :=
  {| now := t; calls := []; logs := []; stdout := [] |}.

Definition doc_on_page (p : Z) (content : string) : Document :=
  {| page_content := content; metadata := [("page", PInt p)] |}.

Definition doc_without_page (content : string) : Document :=
  {| page_content := content; metadata := [("source", PStr "ipc.pdf")] |}.

Definition timeout_error : exn := Exn "TimeoutError" "service unavailable".
Definition quota_error : exn := Exn "ResourceExhausted" "429 quota exceeded".

Definition article_14 : Document :=
  doc_on_page 3 "Article 14. Equality before law.".

Definition article_21 : Document :=
  doc_on_page 7 "Article 21. Protection of life and personal liberty.".

(** Retrieval fails at every call. *)
Definition retrieval_down : Env :=
  mock [Raise timeout_error; Raise timeout_error] [] (1 # 10).

(** Retrieval finds two documents, then one; every generation fails after a
    tenth of a second. *)
Definition generation_down : Env :=
  mock [Ok [article_14; article_21]; Ok [article_14]]
    [Raise quota_error; Raise quota_error] (1 # 10).

(** Retrieval finds two documents and generation answers. *)
Definition all_well : Env :=
  mock [Ok [article_14; article_21]]
    [Ok {| text := Ok "Article 14 guarantees equality." |}] (1 # 10).

(** Retrieval finds nothing and generation answers. *)
Definition no_match : Env :=
  mock [Ok []] [Ok {| text := Ok "Nothing in the corpus says so." |}] (1 # 10).

(** As [no_match], with one more generation answer for the trial call of
    [initialize]. *)
Definition first_use : Env :=
  mock [Ok []]
    [Ok {| text := Ok "Hello!" |};
     Ok {| text := Ok "Nothing in the corpus says so." |}] (1 # 10).



(** Retrieval finds nothing, twice; generation fails. *)
Definition nothing_found : Env :=
  mock [Ok []; Ok []] [Raise quota_error] (1 # 10).

(** Retrieval finds a document with a page number and one without; both
    generation calls answer. *)
Definition section_420 : Document :=
  doc_without_page "Section 420. Cheating and dishonestly inducing delivery of property.".

Definition mixed_pages : Env :=
  mock [Ok [article_14; section_420]]
    [Ok {| text := Ok "From the documents." |};
     Ok {| text := Ok "From general knowledge." |}] (1 # 10).

(** The listing of indexes fails; everything else answers. *)
Definition listing_down : Env :=
  {| PINECONE_API_KEY := Some "pinecone-key";
     PINECONE_INDEX_NAME := None;
     GOOGLE_API_KEY := Some "google-key";
     list_indexes := fun _ _ => Raise timeout_error;
     from_existing_index := fun _ _ name => Ok (Some {| store_index := name |});
     similarity_search := fun _ _ _ _ => Ok [];
     generate_content := fun _ _ _ => Ok {| text := Ok "hello" |};
     latency := fun _ _ _ => (1 # 10)%Q |}.

(** The listing answers, without the index of the orchestrator. *)
Definition index_missing : Env :=
  {| PINECONE_API_KEY := Some "pinecone-key";
     PINECONE_INDEX_NAME := None;
     GOOGLE_API_KEY := Some "google-key";
     list_indexes := fun _ _ => Ok ["some-other-index"];
     from_existing_index := fun _ _ name => Ok (Some {| store_index := name |});
     similarity_search := fun _ _ _ _ => Ok [];
     generate_content := fun _ _ _ => Ok {| text := Ok "hello" |};
     latency := fun _ _ _ => (1 # 10)%Q |}.

(** The orchestrator as [__init__] leaves it. *)
Definition fresh_bot : Chatbot :=
  {| vector_manager := {| index_name := the_index |};
     client := None;
     model_name := "gemini-2.0-flash";
     _initialized := false;
     last_call_time := 0%Q;
     min_call_interval := 1%Q;
     vector_store := None |}.

Fixpoint replicate (n : nat) (c : ascii) : string :=
  match n with
  | O => EmptyString
  | S n' => String c (replicate n' c)
  end.


(** A query while generation is down, fifty seconds after the last
    generation call. *)
Definition generation_down_run : res AnswerResult * Chatbot * World :=
  query generation_down "What is bail?" (ready_bot 50) (at_time 100).

(** The times at which the generation calls among [rs] were issued. *)
Definition generation_times (rs : list CallRecord) : list Q :=
  map issued (filter (fun r => is_generation (call r)) rs).

(** Whether each time of [ts] is at least [d] after the one before it. *)
Fixpoint spaced (d : Q) (ts : list Q) : bool :=
  match ts with
  | t1 :: ((t2 :: _) as rest) => Qle_bool (t1 + d) t2 && spaced d rest
  | _ => true
  end.

(** ** Vocabulary of the further statements *)

Definition is_int (v : PyVal) : bool :=
  match v with PInt _ => true | PStr _ => false end.

(** The text of [doc] as [_prepare_context] puts it in the prompt, and the
    label it puts before it. *)
Definition prepared_content (doc : Document) : string :=
  let content := strip (sub_spaces (page_content doc)) in
  if (400 <? String.length content)%nat
  then prefix 400 content ++ "..."
  else content.

Definition context_label (i : nat) (doc : Document) : string :=
  "**Document " ++ str_of_nat (i + 1) ++ "** (Page " ++ str (page_of doc)
    ++ "): ".

(** Every whitespace character of [s] is a plain space: no line break, no
    tab. *)
Definition one_line (s : string) : Prop :=
  forall c, In c (list_ascii_of_string s) -> is_space c = true -> c = " "%char.

(** The calls of [rs] that satisfy [p]. *)
Definition count_calls (p : Call -> bool) (rs : list (Call * bool)) : nat :=
  length (filter (fun r => p (fst r)) rs).

(** What [initialize] returns when its [try] raised with message [msg]:
    the error is logged and the answer is [False]. *)
Definition gave_up (msg : string) (s : Chatbot) (w : World)
  : res bool * Chatbot * World :=
  (Ok false, s, logged ERROR ("Initialization failed: " ++ msg) w).

(** The parts of the outcome of a computation on a wrapper or on the
    globals. *)
Definition outcome_value {A S} (o : res A * S * World) : res A := fst (fst o).
Definition outcome_state {A S} (o : res A * S * World) : S := snd (fst o).
Definition outcome_world {A S} (o : res A * S * World) : World := snd o.

(** A computation that, started on an initialized orchestrator, leaves it
    initialized. *)
Definition keeps_flag {A} (m : M A) : Prop :=
  forall s w, _initialized s = true -> _initialized (bot (m s w)) = true.

(** A wrapper whose flag, when set, tells the truth about its
    orchestrator. *)
Definition flag_is_sound (c : ConstitutionChatbot.t) : Prop :=
  ConstitutionChatbot._initialized' c = true ->
  _initialized (ConstitutionChatbot.chatbot c) = true.

(** ** Further environments *)

(** Everything answers, but [GOOGLE_API_KEY] is not set. *)
Definition no_google_key : Env :=
  {| PINECONE_API_KEY := Some "pinecone-key";
     PINECONE_INDEX_NAME := None;
     GOOGLE_API_KEY := None;
     list_indexes := fun _ _ => Ok [the_index];
     from_existing_index := fun _ _ name => Ok (Some {| store_index := name |});
     similarity_search := fun _ _ _ _ => Ok [];
     generate_content := fun _ _ _ => Ok {| text := Ok "hello" |};
     latency := fun _ _ _ => (1 # 10)%Q |}.


Definition the_manager : VectorStoreManager := {| index_name := the_index |}.




Definition utf8_console : string -> res unit := fun _ => Ok tt.


(** The wrapper [ConstitutionChatbot()] builds around a fresh
    orchestrator. *)
Definition fresh_wrapper : ConstitutionChatbot.t :=
  ConstitutionChatbot.init fresh_bot.

(** * Properties *)

(** Runs the plumbing of a computation and leaves the services, the
    formatting and the stages it calls as they are. *)
Ltac run_monad :=
  cbv beta iota zeta delta
    [bind try_except self raise ret lift invoke logger update time_time
       vector_store_similarity_search client_generate_content
       _has_relevant_documents].

(** ** No exception leaves a guarded stage *)

Section Handlers.

Context {A B : Type}.

Lemma never_raises_ret (a : A) : never_raises (ret a).
Proof. intros s w. exists a. reflexivity. Qed.

Lemma never_raises_bind (m : M A) (k : A -> M B) :
  never_raises m -> (forall a, never_raises (k a)) -> never_raises (bind m k).
Proof.
  intros Hm Hk s w. unfold bind.
  destruct (Hm s w) as [a Ha].
  destruct (m s w) as [[r s'] w']. unfold value in Ha. simpl in Ha. subst r.
  apply Hk.
Qed.

(** A [try] whose handler cannot raise cannot raise, whatever its body
    does. *)
Lemma never_raises_try_except (body : M A) (handler : exn -> M A) :
  (forall e, never_raises (handler e)) -> never_raises (try_except body handler).
Proof.
  intros Hh s w. unfold try_except.
  destruct (body s w) as [[[a | e] s'] w'].
  - exists a. reflexivity.
  - apply Hh.
Qed.

End Handlers.

Lemma never_raises_logger (lvl : Level) (msg : string) :
  never_raises (logger lvl msg).
Proof. intros s w. exists tt. reflexivity. Qed.

Lemma never_raises_self : never_raises self.
Proof. intros s w. exists s. reflexivity. Qed.

Section Boundary.

Variable env : Env.

Lemma fallback_never_raises (question : string) :
  never_raises (_fallback_approach env question).
Proof.
  apply never_raises_try_except. intros e. apply never_raises_ret.
Qed.

Lemma direct_never_raises (question : string) :
  never_raises (_direct_gemini_approach env question).
Proof.
  apply never_raises_try_except. intros e.
  apply never_raises_bind.
  - apply never_raises_logger.
  - intros _. apply fallback_never_raises.
Qed.

Lemma rag_never_raises (question : string) (docs : list Document) :
  never_raises (_rag_approach env question docs).
Proof.
  apply never_raises_try_except. intros e.
  apply never_raises_bind.
  - apply never_raises_logger.
  - intros _. apply direct_never_raises.
Qed.

Lemma initialize_never_raises : never_raises (initialize env).
Proof.
  unfold initialize. apply never_raises_bind.
  - apply never_raises_self.
  - intros s. destruct (_initialized s).
    + apply never_raises_ret.
    + apply never_raises_try_except. intros e.
      apply never_raises_bind.
      * apply never_raises_logger.
      * intros _. apply never_raises_ret.
Qed.

(** C1.  For every question, every orchestrator state and every behaviour
    of the hosted services, [query] ends with an [AnswerResult] (an answer
    text and a list of source documents) and raises nothing; the terminal
    fallback stage on its own never raises either. *)
Theorem query_never_raises (question : string) (s : Chatbot) (w : World) :
  (exists r : AnswerResult, value (query env question s w) = Ok r)
  /\ (exists r : AnswerResult,
        value (_fallback_approach env question s w) = Ok r).
Proof.
  split.
  - revert s w. change (never_raises (query env question)).
    unfold query. apply never_raises_bind.
    + apply never_raises_self.
    + intros s. apply never_raises_bind.
      * destruct (negb (_initialized s)).
        -- apply initialize_never_raises.
        -- apply never_raises_ret.
      * intros success. destruct (negb success).
        -- apply never_raises_ret.
        -- apply never_raises_try_except. intros e.
           apply never_raises_bind.
           ++ apply never_raises_logger.
           ++ intros _. apply fallback_never_raises.
  - apply fallback_never_raises.
Qed.

End Boundary.

(** ** Running the stages

    One equation per stage: what it returns and the state it leaves, by the
    answer of the service it calls. *)

Lemma skipn_length_app {A} (l l' : list A) : skipn (length l) (l ++ l') = l'.
Proof. induction l as [| x l IH]; simpl; [reflexivity | exact IH]. Qed.

Lemma calls_since_app {A} (w : World) (o : res A * Chatbot * World)
  (l : list CallRecord) :
  calls (world o) = (calls w ++ l)%list -> calls_since w o = l.
Proof. intros H. unfold calls_since. rewrite H. apply skipn_length_app. Qed.

Section Runs.

Variable env : Env.

Lemma rate_limit_run (s : Chatbot) (w : World) :
  rate_limit s w = (Ok tt, s, waited s w).
Proof.
  unfold rate_limit, waited, bind, time_time, self, time_sleep, ret.
  destruct (Qlt_le_dec (now w - last_call_time s) (min_call_interval s));
    reflexivity.
Qed.

Lemma fallback_run (question : string) (s : Chatbot) (w : World) :
  vector_store s <> None ->
  _fallback_approach env question s w =
    let r := search_at env w question 3 in
    (Ok match r with
        | Raise _ => system_unavailable
        | Ok [] => no_documents_found question
        | Ok (d :: ds) => document_digest question (d :: ds)
        end,
     s, after_call env (SimilaritySearch question 3) r w).
Proof.
  intros Hv.
  unfold _fallback_approach, try_except, vector_store_similarity_search,
    bind, self, invoke, search_at, after_call.
  destruct (vector_store s) as [v |]; [| congruence].
  destruct (similarity_search env (now w) (calls w) question 3)
    as [[| d ds] | e]; reflexivity.
Qed.

Lemma direct_run (question : string) (s : Chatbot) (w : World) :
  client s <> None ->
  _direct_gemini_approach env question s w =
    let prompt := _create_direct_prompt question in
    let r := generate_at env w prompt in
    let w1 := after_call env (GenerateContent prompt) r w in
    match r with
    | Ok response =>
        match direct_answer_of response question with
        | Ok formatted =>
            (Ok {| answer := formatted; source_documents := [] |},
             set_last_call_time (now w1) s,
             logged INFO "✓ Direct Gemini approach successful" w1)
        | Raise e =>
            _fallback_approach env question
              (set_last_call_time (now w1) s)
              (logged ERROR ("Direct Gemini approach failed: " ++ str_exn e)
                 w1)
        end
    | Raise e =>
        _fallback_approach env question s
          (logged ERROR ("Direct Gemini approach failed: " ++ str_exn e) w1)
    end.
Proof.
  intros Hc.
  unfold _direct_gemini_approach, try_except, client_generate_content,
    bind, self, invoke, generate_at, after_call, lift, direct_answer_of.
  destruct (client s) as [c |]; [| congruence].
  destruct (generate_content env (now w) (calls w)
              (_create_direct_prompt question)) as [response | e];
    [| reflexivity].
  simpl.
  destruct (text response); reflexivity.
Qed.

Lemma rag_run (question : string) (docs : list Document) (s : Chatbot)
  (w : World) :
  client s <> None ->
  _rag_approach env question docs s w =
    let prompt := _create_rag_prompt question (_prepare_context docs) in
    let r := generate_at env w prompt in
    let w1 := after_call env (GenerateContent prompt) r w in
    match r with
    | Ok response =>
        match rag_answer_of response docs with
        | Ok formatted =>
            (Ok {| answer := formatted; source_documents := docs |},
             set_last_call_time (now w1) s,
             logged INFO "✓ RAG approach successful" w1)
        | Raise e =>
            _direct_gemini_approach env question
              (set_last_call_time (now w1) s)
              (logged ERROR ("RAG approach failed: " ++ str_exn e) w1)
        end
    | Raise e =>
        _direct_gemini_approach env question s
          (logged ERROR ("RAG approach failed: " ++ str_exn e) w1)
    end.
Proof.
  intros Hc.
  unfold _rag_approach, try_except, client_generate_content,
    bind, self, invoke, generate_at, after_call, lift, rag_answer_of.
  destruct (client s) as [c |]; [| congruence].
  destruct (generate_content env (now w) (calls w)
              (_create_rag_prompt question (_prepare_context docs)))
    as [response | e]; [| reflexivity].
  simpl.
  destruct (text response) as [generated | e]; [| reflexivity].
  destruct (_format_rag_answer generated docs); reflexivity.
Qed.

Lemma query_run (question : string) (s : Chatbot) (w : World) :
  ready s = true ->
  query env question s w =
    let w0 := at_search question s w in
    let r := search_at env w0 question 6 in
    let w1 := after_call env (SimilaritySearch question 6) r w0 in
    match r with
    | Ok [] =>
        _direct_gemini_approach env question s
          (logged INFO
             "No highly relevant documents found, using direct Gemini approach..."
             w1)
    | Ok (d :: ds) =>
        _rag_approach env question (d :: ds) s
          (logged INFO "Found relevant documents, using RAG approach..."
             (logged INFO
                ("Using RAG with " ++ str_of_nat (length (d :: ds))
                   ++ " documents found") w1))
    | Raise e =>
        _fallback_approach env question s
          (logged ERROR ("Query failed: " ++ str_exn e) w1)
    end.
Proof.
  intros Hr. unfold ready in Hr.
  apply andb_prop in Hr. destruct Hr as [Hr Hc].
  apply andb_prop in Hr. destruct Hr as [Hi Hv].
  unfold query, query_body, at_search, search_at, after_call, try_except.
  cbv beta iota delta [bind self ret]. rewrite Hi.
  cbv beta iota delta [negb]. rewrite rate_limit_run.
  unfold logger, vector_store_similarity_search.
  cbv beta iota delta [bind self ret].
  destruct (vector_store s) as [v |] eqn:Ev; [| discriminate].
  unfold invoke.
  match goal with
  | |- context [similarity_search env ?t ?h question 6] =>
      destruct (similarity_search env t h question 6) as [[| d ds] | e]
  end; cbv beta iota delta [_has_relevant_documents bind ret logger].
  - match goal with
    | |- context [_direct_gemini_approach env question ?s0 ?w0] =>
        destruct (direct_never_raises env question s0 w0) as [a Ha];
        destruct (_direct_gemini_approach env question s0 w0) as [[r s'] w']
    end.
    unfold value in Ha. simpl in Ha. subst r. reflexivity.
  - match goal with
    | |- context [_rag_approach env question ?ds0 ?s0 ?w0] =>
        destruct (rag_never_raises env question ds0 s0 w0) as [a Ha];
        destruct (_rag_approach env question ds0 s0 w0) as [[r s'] w']
    end.
    unfold value in Ha. simpl in Ha. subst r. reflexivity.
  - reflexivity.
Qed.

End Runs.

(** ** The calls a run leaves behind *)

Lemma calls_waited (s : Chatbot) (w : World) : calls (waited s w) = calls w.
Proof.
  unfold waited.
  destruct (Qlt_le_dec (now w - last_call_time s) (min_call_interval s));
    reflexivity.
Qed.

Lemma calls_logged (lvl : Level) (msg : string) (w : World) :
  calls (logged lvl msg w) = calls w.
Proof. reflexivity. Qed.

Lemma now_logged (lvl : Level) (msg : string) (w : World) :
  now (logged lvl msg w) = now w.
Proof. reflexivity. Qed.

Lemma calls_at_search (question : string) (s : Chatbot) (w : World) :
  calls (at_search question s w) = calls w.
Proof. unfold at_search. rewrite !calls_logged. apply calls_waited. Qed.

Lemma calls_after_call {A} (env : Env) (c : Call) (r : res A) (w : World) :
  calls (after_call env c r w) =
    (calls w ++ [{| issued := now w; call := c; returned := is_ok r;
                    finished := now (after_call env c r w) |}])%list.
Proof. reflexivity. Qed.

Create Rewrite HintDb trace.
#[local] Hint Rewrite calls_logged now_logged calls_at_search
  @calls_after_call : trace.

(** Reads the calls of a run off its final state. *)
Ltac read_calls :=
  unfold world; cbn [snd fst]; autorewrite with trace;
  rewrite <- ?app_assoc; cbn [app]; reflexivity.

Lemma ready_handles (s : Chatbot) :
  ready s = true ->
  _initialized s = true /\ vector_store s <> None /\ client s <> None.
Proof.
  unfold ready. intros H.
  apply andb_prop in H. destruct H as [H Hc].
  apply andb_prop in H. destruct H as [Hi Hv].
  repeat split; [exact Hi | |]; intros E; rewrite E in *; discriminate.
Qed.

(** Walks a query on an initialized orchestrator through its stages,
    splitting on the answers of the services and on what each path makes of
    the response it got. *)
Ltac walk_query env question s w Hr Hv Hc :=
  rewrite query_run by exact Hr; cbv zeta;
  destruct (search_at env (at_search question s w) question 6)
    as [[| ? ?] | ?];
  repeat first
    [ rewrite direct_run by exact Hc
    | rewrite rag_run by exact Hc
    | rewrite fallback_run by exact Hv
    | progress cbv zeta
    | match goal with
      | |- context [generate_at env ?w0 ?p] =>
          destruct (generate_at env w0 p) as [? | ?] eqn:?
      | |- context [rag_answer_of ?r ?d] =>
          unfold rag_answer_of; destruct (text r) as [? | ?] eqn:?
      | |- context [direct_answer_of ?r ?q] =>
          unfold direct_answer_of; destruct (text r) as [? | ?] eqn:?
      | |- context [_format_rag_answer ?a ?d] =>
          destruct (_format_rag_answer a d) as [? | ?] eqn:?
      end ].

(** The orchestrators the statements below call initialized are the ones
    [initialize] produces: when it succeeds, the flag is set and both
    handles are in place. *)
Lemma initialize_makes_ready (env : Env) (s : Chatbot) (w : World) :
  _initialized s = false ->
  value (initialize env s w) = Ok true ->
  ready (bot (initialize env s w)) = true.
Proof.
  intros Hi.
  unfold initialize, check_index_exists, get_vector_store, listed, print.
  run_monad. rewrite Hi. cbn [logged printed now calls].
  destruct (list_indexes env (now w) (calls w)) as [names | e];
    cbv beta iota; cbn [answered now calls];
    [| intros H; discriminate H].
  destruct (existsb (String.eqb (index_name (vector_manager s))) names);
    cbn [negb]; cbv beta iota; [| intros H; discriminate H].
  match goal with
  | |- context [list_indexes env ?t ?h] =>
      destruct (list_indexes env t h) as [names' | e']
  end; cbv beta iota; cbn [answered now calls];
    [| intros H; discriminate H].
  destruct (existsb (String.eqb (index_name (vector_manager s))) names');
    cbn [negb]; cbv beta iota; [| intros H; discriminate H].
  match goal with
  | |- context [from_existing_index env ?t ?h ?n] =>
      destruct (from_existing_index env t h n) as [[store |] | e'']
  end; cbv beta iota; try (intros H; discriminate H).
  destruct (not_set (GOOGLE_API_KEY env)); cbv beta iota;
    [intros H; discriminate H |].
  cbn [client set_client set_vector_store]. cbv beta iota.
  match goal with
  | |- context [generate_content env ?t ?h ?p] =>
      destruct (generate_content env t h p) as [response | e3]
  end; cbv beta iota; [| intros H; discriminate H].
  intros _. reflexivity.
Qed.

(** ** Telling the answers and the prompts apart *)

Lemma Ok_inj {A} (a b : A) : Ok a = Ok b -> a = b.
Proof. intros H. injection H as H. exact H. Qed.

Lemma prompts_differ (question question' context : string) :
  _create_rag_prompt question context <> _create_direct_prompt question'.
Proof.
  unfold _create_rag_prompt, _create_direct_prompt. intros H.
  cbn [append] in H. discriminate H.
Qed.

Lemma unavailable_is_not_no_documents (question : string) :
  no_documents_found question <> system_unavailable.
Proof.
  unfold no_documents_found, system_unavailable. intros H.
  injection H as H. cbn [append] in H. discriminate H.
Qed.

Lemma unavailable_is_not_digest (question : string) (d : Document)
  (ds : list Document) :
  document_digest question (d :: ds) <> system_unavailable.
Proof. unfold document_digest, system_unavailable. intros H. discriminate H. Qed.

(** ** The terminal stage *)

(** C3, as stated, fails: when the reduced search itself raises, the answer
    is the "temporarily unavailable" text, not the "no documents" one. *)
Lemma failed_reduced_search_is_unavailable :
  search_at retrieval_down (at_time 100) "What is bail?" 3
    = Raise timeout_error
  /\ value (_fallback_approach retrieval_down "What is bail?" (ready_bot 0)
              (at_time 100))
     = Ok system_unavailable
  /\ system_unavailable <> no_documents_found "What is bail?".
Proof.
  split; [reflexivity |]. split; [reflexivity |].
  intros H. symmetry in H. exact (unavailable_is_not_no_documents _ H).
Qed.

(** C3, as amended.  In the terminal stage of an orchestrator that holds its
    store handle: a reduced search (k = 3) that returns no document gives
    the "no documents" message, which quotes the question, with no source;
    one that returns documents gives their digest with those documents as
    sources; one that raises gives the "temporarily unavailable" message
    with no source, and nothing else gives that message. *)
Theorem fallback_outcomes (env : Env) (question : string) (s : Chatbot)
  (w : World) :
  vector_store s <> None ->
  let r := search_at env w question 3 in
  let result := value (_fallback_approach env question s w) in
  (r = Ok [] ->
   result = Ok (no_documents_found question)
   /\ source_documents (no_documents_found question) = [])
  /\ (forall d ds, r = Ok (d :: ds) ->
      result = Ok (document_digest question (d :: ds))
      /\ source_documents (document_digest question (d :: ds)) = d :: ds)
  /\ (forall e, r = Raise e ->
      result = Ok system_unavailable
      /\ source_documents system_unavailable = [])
  /\ (result = Ok system_unavailable -> exists e, r = Raise e).
Proof.
  intros Hv r result. subst result.
  rewrite fallback_run by exact Hv. cbv zeta. fold r. unfold value. cbn [fst].
  repeat split.
  - rewrite H. reflexivity.
  - rewrite H. reflexivity.
  - rewrite H. reflexivity.
  - destruct r as [[| d ds] | e]; intros H.
    + apply Ok_inj in H. elim (unavailable_is_not_no_documents _ H).
    + apply Ok_inj in H. elim (unavailable_is_not_digest _ _ _ H).
    + exists e. reflexivity.
Qed.

(** The amended C3 at a run whose reduced search finds nothing. *)
Lemma fallback_outcomes_witness :
  vector_store (ready_bot 0) <> None
  /\ (search_at nothing_found (at_time 100) "What is bail?" 3 = Ok [] ->
      value (_fallback_approach nothing_found "What is bail?" (ready_bot 0)
               (at_time 100))
        = Ok (no_documents_found "What is bail?")
      /\ source_documents (no_documents_found "What is bail?") = []).
Proof.
  split.
  - discriminate.
  - apply (fallback_outcomes nothing_found "What is bail?" (ready_bot 0)
             (at_time 100)).
    discriminate.
Defined.

(** ** The timestamp of the last generation call *)

Section Timestamp.

Variable env : Env.

(** C4, as amended.  On an initialized orchestrator, [last_call_time] after
    a query is the end time of the last generation call of that query that
    returned a response; a generation call that raised leaves it as it
    was, and so does a query without any returned generation call. *)
Theorem timestamp_follows_returned_generations (question : string)
  (s : Chatbot) (w : World) :
  ready s = true ->
  last_call_time (bot (query env question s w)) =
    stamp (last_call_time s) (calls_since w (query env question s w)).
Proof.
  intros Hr. destruct (ready_handles s Hr) as (Hi & Hv & Hc).
  walk_query env question s w Hr Hv Hc;
    erewrite calls_since_app by read_calls; reflexivity.
Qed.

End Timestamp.

(** C4, as stated, fails: both generation calls of this query raised, and
    [last_call_time] still holds 50 although every call ended after 100. *)
Lemma failed_generation_leaves_timestamp :
  map (fun r => (is_generation (call r), returned r))
    (calls_since (at_time 100) generation_down_run)
    = [(false, true); (true, false); (true, false); (false, true)]
  /\ last_call_time (bot generation_down_run) = 50%Q
  /\ forallb (fun r => Qle_bool 100 (finished r))
       (calls_since (at_time 100) generation_down_run) = true.
Proof. repeat split; vm_compute; reflexivity. Qed.

(** The amended C4 at a run whose RAG generation call returns. *)
Lemma timestamp_follows_returned_generations_witness :
  ready (ready_bot 50) = true
  /\ last_call_time (bot (query all_well "What is Article 14?" (ready_bot 50)
                            (at_time 100)))
     = stamp (last_call_time (ready_bot 50))
         (calls_since (at_time 100)
            (query all_well "What is Article 14?" (ready_bot 50)
               (at_time 100))).
Proof.
  split.
  - reflexivity.
  - apply timestamp_follows_returned_generations. reflexivity.
Defined.

(** ** The rate limiter *)

(** C2, as stated, fails: the two generation calls of this query were issued
    a tenth of a second apart, with no wait between the failed call of the
    RAG path and the call of the direct path.  Nor does a wait separate the
    trial call of [initialize] from the generation call of a first query. *)
Lemma second_generation_call_not_delayed :
  map (fun r => (is_generation (call r), returned r))
    (calls_since (at_time 100) generation_down_run)
    = [(false, true); (true, false); (true, false); (false, true)]
  /\ length (generation_times (calls_since (at_time 100) generation_down_run))
     = 2
  /\ spaced 1 (generation_times (calls_since (at_time 100) generation_down_run))
     = false
  /\ spaced (1 # 10)
       (generation_times (calls_since (at_time 100) generation_down_run))
     = true
  /\ spaced 1
       (generation_times
          (calls_since (at_time 100)
             (query first_use "foo bar baz" fresh_bot (at_time 100))))
     = false.
Proof. repeat split; vm_compute; reflexivity. Qed.

Section Pace.

Context {A B : Type}.

Lemma pace_still (m : M A) :
  (forall s w, now (world (m s w)) = now w) ->
  (forall s w, calls (world (m s w)) = calls w) ->
  keeps_pace m.
Proof.
  intros Hn Hc t s w Ht. rewrite Hn, Hc. split; [exact Ht |].
  exists []. rewrite app_nil_r. split; [reflexivity | constructor].
Qed.

Lemma pace_bind (m : M A) (k : A -> M B) :
  keeps_pace m -> (forall a, keeps_pace (k a)) -> keeps_pace (bind m k).
Proof.
  intros Hm Hk t s w Ht. unfold bind.
  destruct (Hm t s w Ht) as (Hn & l1 & Hc1 & Hf1).
  destruct (m s w) as [[[a | e] s'] w']; unfold world in Hn, Hc1;
    cbn [snd] in Hn, Hc1.
  - destruct (Hk a t s' w' Hn) as (Hn2 & l2 & Hc2 & Hf2).
    split; [exact Hn2 |]. exists (l1 ++ l2)%list.
    rewrite Hc2, Hc1, app_assoc. split; [reflexivity |].
    apply Forall_app. split; assumption.
  - split; [exact Hn |]. exists l1. split; assumption.
Qed.

Lemma pace_try_except (body : M A) (handler : exn -> M A) :
  keeps_pace body -> (forall e, keeps_pace (handler e)) ->
  keeps_pace (try_except body handler).
Proof.
  intros Hm Hh t s w Ht. unfold try_except.
  destruct (Hm t s w Ht) as (Hn & l1 & Hc1 & Hf1).
  destruct (body s w) as [[[a | e] s'] w']; unfold world in Hn, Hc1;
    cbn [snd] in Hn, Hc1.
  - split; [exact Hn |]. exists l1. split; assumption.
  - destruct (Hh e t s' w' Hn) as (Hn2 & l2 & Hc2 & Hf2).
    split; [exact Hn2 |]. exists (l1 ++ l2)%list.
    rewrite Hc2, Hc1, app_assoc. split; [reflexivity |].
    apply Forall_app. split; assumption.
Qed.

End Pace.

Lemma back_to_back_app (l1 l2 : list CallRecord) :
  forall t t1 t2,
    back_to_back t l1 t1 -> back_to_back t1 l2 t2 ->
    back_to_back t (l1 ++ l2) t2.
Proof.
  induction l1 as [| r l1 IH]; intros t t1 t2 H1 H2; cbn [app back_to_back] in *.
  - subst t1. exact H2.
  - destruct H1 as [Hi H1]. split; [exact Hi |]. exact (IH _ _ _ H1 H2).
Qed.

Section NoWait.

Context {A B : Type}.

Lemma still_never_waits (m : M A) :
  (forall s w, now (world (m s w)) = now w) ->
  (forall s w, calls (world (m s w)) = calls w) ->
  never_waits m.
Proof.
  intros Hn Hc s w. exists []. rewrite Hn, Hc, app_nil_r.
  split; reflexivity.
Qed.

Lemma bind_never_waits (m : M A) (k : A -> M B) :
  never_waits m -> (forall a, never_waits (k a)) -> never_waits (bind m k).
Proof.
  intros Hm Hk s w. unfold bind.
  destruct (Hm s w) as (l1 & Hc1 & Hb1).
  destruct (m s w) as [[[a | e] s'] w']; unfold world in Hc1, Hb1;
    cbn [snd] in Hc1, Hb1.
  - destruct (Hk a s' w') as (l2 & Hc2 & Hb2).
    exists (l1 ++ l2)%list. rewrite Hc2, Hc1, app_assoc.
    split; [reflexivity |]. exact (back_to_back_app _ _ _ _ _ Hb1 Hb2).
  - exists l1. split; assumption.
Qed.

Lemma try_except_never_waits (body : M A) (handler : exn -> M A) :
  never_waits body -> (forall e, never_waits (handler e)) ->
  never_waits (try_except body handler).
Proof.
  intros Hm Hh s w. unfold try_except.
  destruct (Hm s w) as (l1 & Hc1 & Hb1).
  destruct (body s w) as [[[a | e] s'] w']; unfold world in Hc1, Hb1;
    cbn [snd] in Hc1, Hb1.
  - exists l1. split; assumption.
  - destruct (Hh e s' w') as (l2 & Hc2 & Hb2).
    exists (l1 ++ l2)%list. rewrite Hc2, Hc1, app_assoc.
    split; [reflexivity |]. exact (back_to_back_app _ _ _ _ _ Hb1 Hb2).
Qed.

End NoWait.

Section Pacing.

Variable env : Env.

Lemma invoke_never_waits {A} (c : Call)
  (service : Q -> list CallRecord -> res A) :
  never_waits (invoke env c service).
Proof.
  intros s w. unfold invoke, world, answered. cbn [snd now calls].
  eexists. split; [reflexivity |]. cbn [back_to_back issued finished].
  split; reflexivity.
Qed.

(** Shows that a computation never waits from its parts: none of them may
    be [time_sleep] or contain it. *)
Ltac no_wait :=
  repeat first
    [ apply invoke_never_waits
    | apply still_never_waits; reflexivity
    | apply bind_never_waits; [| intros ?]
    | apply try_except_never_waits; [| intros ?]
    | match goal with
      | |- never_waits (if ?b then _ else _) => destruct b
      | |- never_waits (match ?x with _ => _ end) => destruct x
      end ].

Lemma search_never_waits (question : string) (k : nat) :
  never_waits (vector_store_similarity_search env question k).
Proof. unfold vector_store_similarity_search. no_wait. Qed.

Lemma generate_never_waits (prompt : string) :
  never_waits (client_generate_content env prompt).
Proof. unfold client_generate_content. no_wait. Qed.

Lemma fallback_never_waits (question : string) :
  never_waits (_fallback_approach env question).
Proof.
  unfold _fallback_approach.
  apply try_except_never_waits; [| intros e; no_wait].
  apply bind_never_waits; [apply search_never_waits | intros docs; no_wait].
Qed.

Lemma direct_never_waits (question : string) :
  never_waits (_direct_gemini_approach env question).
Proof.
  unfold _direct_gemini_approach. apply try_except_never_waits.
  - apply bind_never_waits; [apply generate_never_waits | intros r; no_wait].
  - intros e.
    apply bind_never_waits; [no_wait | intros _; apply fallback_never_waits].
Qed.

Lemma rag_never_waits (question : string) (docs : list Document) :
  never_waits (_rag_approach env question docs).
Proof.
  unfold _rag_approach. apply try_except_never_waits.
  - apply bind_never_waits; [apply generate_never_waits | intros r; no_wait].
  - intros e.
    apply bind_never_waits; [no_wait | intros _; apply direct_never_waits].
Qed.

Lemma initialize_never_waits : never_waits (initialize env).
Proof.
  unfold initialize, check_index_exists, get_vector_store, listed, print.
  apply bind_never_waits; [no_wait | intros s].
  destruct (_initialized s); [no_wait |].
  apply try_except_never_waits; [| intros e; no_wait].
  apply bind_never_waits; [no_wait | intros _].
  apply bind_never_waits; [no_wait | intros found].
  destruct (negb found); [no_wait |].
  apply bind_never_waits; [no_wait | intros store].
  apply bind_never_waits; [no_wait | intros _].
  destruct store as [store |]; [| no_wait].
  apply bind_never_waits; [no_wait | intros _].
  apply bind_never_waits; [no_wait | intros _].
  destruct (not_set (GOOGLE_API_KEY env)); [no_wait |].
  apply bind_never_waits; [no_wait | intros _].
  apply bind_never_waits; [apply generate_never_waits | intros r; no_wait].
Qed.

(** After its wait, the guarded body of [query] never waits again. *)
Lemma query_guard_never_waits (question : string) :
  never_waits
    (try_except
       (logger INFO ("Processing question: " ++ question) ;;
        logger INFO "Searching Pinecone for relevant documents..." ;;
        docs <- vector_store_similarity_search env question 6 ;;
        has_relevant_docs <- _has_relevant_documents question docs ;;
        if has_relevant_docs
        then
          logger INFO "Found relevant documents, using RAG approach..." ;;
          _rag_approach env question docs
        else
          logger INFO "No highly relevant documents found, using direct Gemini approach..." ;;
          _direct_gemini_approach env question)
       (fun e =>
          logger ERROR ("Query failed: " ++ str_exn e) ;;
          _fallback_approach env question)).
Proof.
  apply try_except_never_waits.
  - apply bind_never_waits; [no_wait | intros _].
    apply bind_never_waits; [no_wait | intros _].
    apply bind_never_waits; [apply search_never_waits | intros docs].
    apply bind_never_waits;
      [unfold _has_relevant_documents; no_wait | intros b].
    destruct b.
    + apply bind_never_waits; [no_wait | intros _; apply rag_never_waits].
    + apply bind_never_waits; [no_wait | intros _; apply direct_never_waits].
  - intros e.
    apply bind_never_waits; [no_wait | intros _; apply fallback_never_waits].
Qed.

(** No call to a hosted service takes negative time. *)
Hypothesis latency_nonneg : forall t h c, (0 <= latency env t h c)%Q.

Lemma pace_invoke {A} (c : Call) (service : Q -> list CallRecord -> res A) :
  keeps_pace (invoke env c service).
Proof.
  intros t s w Ht. unfold invoke, world, answered. cbn [snd now calls].
  split.
  - pose proof (latency_nonneg (now w) (calls w) c). lra.
  - eexists. split; [reflexivity |].
    constructor; [exact Ht | constructor].
Qed.

(** Builds the pace of a computation from the pace of its parts. *)
Ltac pace :=
  repeat first
    [ apply pace_invoke
    | apply pace_still; reflexivity
    | apply pace_bind; [| intros ?]
    | apply pace_try_except; [| intros ?]
    | match goal with
      | |- keeps_pace (if ?b then _ else _) => destruct b
      | |- keeps_pace (match ?x with _ => _ end) => destruct x
      end ].

Lemma pace_search (question : string) (k : nat) :
  keeps_pace (vector_store_similarity_search env question k).
Proof. unfold vector_store_similarity_search. pace. Qed.

Lemma pace_generate (prompt : string) :
  keeps_pace (client_generate_content env prompt).
Proof. unfold client_generate_content. pace. Qed.

Lemma pace_fallback (question : string) :
  keeps_pace (_fallback_approach env question).
Proof.
  unfold _fallback_approach.
  apply pace_try_except; [| intros e; pace].
  apply pace_bind; [apply pace_search | intros docs; pace].
Qed.

Lemma pace_direct (question : string) :
  keeps_pace (_direct_gemini_approach env question).
Proof.
  unfold _direct_gemini_approach. apply pace_try_except.
  - apply pace_bind; [apply pace_generate | intros response; pace].
  - intros e. apply pace_bind; [pace | intros _; apply pace_fallback].
Qed.

Lemma pace_rag (question : string) (docs : list Document) :
  keeps_pace (_rag_approach env question docs).
Proof.
  unfold _rag_approach. apply pace_try_except.
  - apply pace_bind; [apply pace_generate | intros response; pace].
  - intros e. apply pace_bind; [pace | intros _; apply pace_direct].
Qed.

Lemma now_waited (s : Chatbot) (w : World) :
  (now w <= now (waited s w))%Q
  /\ (last_call_time s + min_call_interval s <= now (waited s w))%Q.
Proof.
  unfold waited.
  destruct (Qlt_le_dec (now w - last_call_time s) (min_call_interval s));
    cbn [slept now]; split; lra.
Qed.

(** A guarded computation that starts with the rate limiter is the rest of
    it, run from the state the wait leaves. *)
Lemma guard_after_wait {A} (k : M A) (handler : exn -> M A) (s : Chatbot)
  (w : World) :
  try_except (rate_limit ;; k) handler s w
  = try_except k handler s (waited s w).
Proof. unfold try_except, bind. rewrite rate_limit_run. reflexivity. Qed.

(** A guarded computation that starts with the rate limiter issues every
    call after the interval has passed. *)
Lemma pace_after_wait {A} (k : M A) (handler : exn -> M A) (s : Chatbot)
  (w : World) :
  keeps_pace k -> (forall e, keeps_pace (handler e)) ->
  Forall (fun r => (last_call_time s + min_call_interval s <= issued r)%Q)
    (calls_since w (try_except (rate_limit ;; k) handler s w)).
Proof.
  intros Hk Hh. rewrite guard_after_wait.
  destruct (pace_try_except k handler Hk Hh
              (last_call_time s + min_call_interval s)%Q s (waited s w)
              (proj2 (now_waited s w))) as (_ & l & Hc & Hf).
  rewrite calls_waited in Hc.
  rewrite (calls_since_app w _ l Hc). exact Hf.
Qed.

(** C2, as amended.  On an initialized orchestrator [query] computes the
    time since [last_call_time] once, before anything else: if it is less
    than [min_call_interval] the caller sleeps for what is missing, so
    that the clock then stands at [last_call_time + min_call_interval];
    otherwise nothing is waited.  Every call the query then makes,
    generation calls included, is issued at least [min_call_interval]
    after [last_call_time].  That wait is the only one: the first call of
    the query is issued at the time the wait leaves, every later call (the
    generation call of the direct path after the one of the RAG path in
    particular) at the very moment the call before it ended, and the query
    ends when its last call ends.  [initialize] does not wait at all: from
    any state its calls, the trial generation call included, are made back
    to back from the time it starts. *)
Theorem query_waits_once_at_its_head (question : string) (s : Chatbot)
  (w : World) :
  _initialized s = true ->
  ((now w - last_call_time s < min_call_interval s)%Q ->
   (now (world (rate_limit s w))
    == last_call_time s + min_call_interval s)%Q)
  /\ ((min_call_interval s <= now w - last_call_time s)%Q ->
      world (rate_limit s w) = w)
  /\ Forall
       (fun r => (last_call_time s + min_call_interval s <= issued r)%Q)
       (calls_since w (query env question s w))
  /\ back_to_back (now (world (rate_limit s w)))
       (calls_since w (query env question s w))
       (now (world (query env question s w)))
  /\ (forall (s' : Chatbot) (w' : World),
        back_to_back (now w')
          (calls_since w' (initialize env s' w'))
          (now (world (initialize env s' w')))).
Proof.
  intros Hi.
  assert (E : query env question s w
              = try_except (query_body env question)
                  (fun e =>
                     logger ERROR ("Query failed: " ++ str_exn e) ;;
                     _fallback_approach env question) s w).
  { unfold query. unfold bind at 1. unfold self at 1. rewrite Hi.
    reflexivity. }
  rewrite rate_limit_run. unfold world at 1 2 3. cbn [snd].
  split; [| split; [| split; [| split]]].
  - intros Hlt. unfold waited.
    destruct (Qlt_le_dec (now w - last_call_time s) (min_call_interval s));
      cbn [slept now]; lra.
  - intros Hle. unfold waited.
    destruct (Qlt_le_dec (now w - last_call_time s) (min_call_interval s));
      [lra | reflexivity].
  - rewrite E. unfold query_body. apply pace_after_wait.
    + apply pace_bind; [pace | intros _].
      apply pace_bind; [pace | intros _].
      apply pace_bind; [apply pace_search | intros docs].
      apply pace_bind; [unfold _has_relevant_documents; pace | intros b].
      destruct b.
      * apply pace_bind; [pace | intros _; apply pace_rag].
      * apply pace_bind; [pace | intros _; apply pace_direct].
    + intros e. apply pace_bind; [pace | intros _; apply pace_fallback].
  - rewrite E. unfold query_body. rewrite guard_after_wait.
    destruct (query_guard_never_waits question s (waited s w))
      as (l & Hc & Hb).
    rewrite calls_waited in Hc.
    rewrite (calls_since_app w _ l Hc). exact Hb.
  - intros s' w'.
    destruct (initialize_never_waits s' w') as (l & Hc & Hb).
    rewrite (calls_since_app w' _ l Hc). exact Hb.
Qed.

End Pacing.

(** The amended C2 at a query made half a second after the last generation
    call, with services that take a tenth of a second: the RAG path fails
    after its generation call returned, and the generation call of the
    direct path follows it at once. *)
Lemma query_waits_once_at_its_head_witness :
  (forall t h c, (0 <= latency mixed_pages t h c)%Q)
  /\ _initialized (ready_bot (995 # 10)) = true
  /\ Forall
       (fun r =>
          (last_call_time (ready_bot (995 # 10))
           + min_call_interval (ready_bot (995 # 10)) <= issued r)%Q)
       (calls_since (at_time 100)
          (query mixed_pages "What is cheating?" (ready_bot (995 # 10))
             (at_time 100)))
  /\ back_to_back
       (now (world (rate_limit (ready_bot (995 # 10)) (at_time 100))))
       (calls_since (at_time 100)
          (query mixed_pages "What is cheating?" (ready_bot (995 # 10))
             (at_time 100)))
       (now (world (query mixed_pages "What is cheating?"
                      (ready_bot (995 # 10)) (at_time 100)))).
Proof.
  assert (H : forall t h c, (0 <= latency mixed_pages t h c)%Q).
  { intros t h c. vm_compute. discriminate. }
  split; [exact H |]. split; [reflexivity |].
  destruct (query_waits_once_at_its_head mixed_pages H "What is cheating?"
              (ready_bot (995 # 10)) (at_time 100) eq_refl)
    as (_ & _ & Hpace & Honce & _).
  split; [exact Hpace | exact Honce].
Defined.

(** ** Which path a query takes *)

(** Splits what is known of the direct path into its three courses. *)
Ltac stage_cases H :=
  unfold direct_stage in H; cbv zeta in H;
  destruct H as [[? ?] | [(? & ? & ?) | (? & ? & ?)]]; subst.

Section Paths.

Variable env : Env.

(** The calls of a query on an initialized orchestrator, by the answers of
    the services: the search, then the generation calls of the paths
    taken, then the reduced search if the terminal stage is reached. *)
Lemma query_traces (question : string) (s : Chatbot) (w : World) :
  ready s = true ->
  let S6 := SimilaritySearch question 6 in
  let S3 := SimilaritySearch question 3 in
  let trace := observed env question s w in
  let texts := obtained env question s w in
  match search_at env (at_search question s w) question 6 with
  | Raise _ =>
      exists b, trace = [(S6, false); (S3, b)] /\ texts = [(S6, false); (S3, b)]
  | Ok [] =>
      exists l l',
        trace = (S6, true) :: l /\ texts = (S6, true) :: l'
        /\ direct_stage question l l'
  | Ok (d :: ds) =>
      let R :=
        GenerateContent
          (_create_rag_prompt question (_prepare_context (d :: ds))) in
      (trace = [(S6, true); (R, true)] /\ texts = [(S6, true); (R, true)])
      \/ exists bR bR' l l',
          trace = (S6, true) :: (R, bR) :: l
          /\ texts = (S6, true) :: (R, bR') :: l'
          /\ (bR = false -> bR' = false)
          /\ direct_stage question l l'
  end.
Proof.
  intros Hr. destruct (ready_handles s Hr) as (Hi & Hv & Hc).
  cbv zeta. unfold observed, obtained.
  walk_query env question s w Hr Hv Hc.
  all: erewrite calls_since_app by read_calls.
  all: cbn [map seen call returned delivered delivered_by issued].
  all: unfold generate_at in *; autorewrite with trace in *.
  all: repeat match goal with
              | E : generate_content _ _ _ _ = _ |- _ => rewrite E; clear E
              | E : text _ = _ |- _ => rewrite E; clear E
              end.
  all: cbn [is_ok].
  all: try (eexists; split; reflexivity).
  all: try (left; split; reflexivity).
  all: try right.
  all: repeat eexists.
  all: try (intros H; discriminate H).
  all: unfold direct_stage; cbv zeta.
  all: try (left; split; reflexivity).
  all: try (right; left; eexists; split; reflexivity).
  all: right; right; eexists; split; reflexivity.
Qed.

Lemma seen_generation_inj (p p' : string) (b b' : bool) :
  (GenerateContent p, b) = (GenerateContent p', b') -> p = p' /\ b = b'.
Proof. intros H. inversion H. split; reflexivity. Qed.

(** Splits a membership in an explicit list into its equations and drops
    those that equate different calls or different outcomes. *)
Ltac membership H :=
  cbn [In] in H;
  repeat (destruct H as [H | H]);
  try contradiction;
  try discriminate H;
  try (apply seen_generation_inj in H; destruct H as [H ?];
       try discriminate;
       try (symmetry in H; elim (prompts_differ _ _ _ H));
       try (elim (prompts_differ _ _ _ H))).



(** C7.  On an initialized orchestrator, a query makes a generation call
    with a RAG prompt exactly when its top-6 search returned at least one
    document, whatever the documents are; that call then follows the
    search at once and carries the context of all of them.  When the
    search returned none, the call that follows it is the generation of
    the direct path. *)
Theorem rag_path_iff_documents (question : string) (s : Chatbot)
  (w : World) :
  ready s = true ->
  let r6 := search_at env (at_search question s w) question 6 in
  let trace := observed env question s w in
  ((exists d ds, r6 = Ok (d :: ds))
   <-> (exists context b,
          In (GenerateContent (_create_rag_prompt question context), b)
            trace))
  /\ (forall d ds, r6 = Ok (d :: ds) ->
      exists b,
        firstn 2 trace =
          [(SimilaritySearch question 6, true);
           (GenerateContent
              (_create_rag_prompt question (_prepare_context (d :: ds))),
            b)])
  /\ (r6 = Ok [] ->
      exists b,
        firstn 2 trace =
          [(SimilaritySearch question 6, true);
           (GenerateContent (_create_direct_prompt question), b)]).
Proof.
  intros Hr r6 trace.
  pose proof (query_traces question s w Hr) as Hcases.
  cbv zeta in Hcases. fold r6 trace in Hcases.
  destruct r6 as [[| d ds] | e6].
  - destruct Hcases as (l & l' & E & _ & Hd). rewrite E.
    split; [| split].
    + split.
      * intros (d & ds & H). discriminate H.
      * intros (context & b & H). stage_cases Hd; membership H.
    + intros d ds H. discriminate H.
    + intros _. stage_cases Hd; eexists; reflexivity.
  - assert (Hfirst : exists b rest,
               trace =
                 (SimilaritySearch question 6, true)
                   :: (GenerateContent
                         (_create_rag_prompt question
                            (_prepare_context (d :: ds))), b) :: rest).
    { destruct Hcases as [[E _] | (bR & _ & l & _ & E & _)];
        rewrite E; eexists; eexists; reflexivity. }
    destruct Hfirst as (b & rest & E). rewrite E.
    split; [| split].
    + split.
      * intros _. exists (_prepare_context (d :: ds)), b.
        cbn [In]. right. left. reflexivity.
      * intros _. exists d, ds. reflexivity.
    + intros d' ds' H. apply Ok_inj in H. rewrite <- H.
      exists b. reflexivity.
    + intros H. discriminate H.
  - destruct Hcases as (b' & E & _). rewrite E.
    split; [| split].
    + split.
      * intros (d & ds & H). discriminate H.
      * intros (context & b & H). membership H.
    + intros d ds H. discriminate H.
    + intros H. discriminate H.
Qed.

End Paths.



(** C7 at a run whose search finds two documents. *)
Lemma rag_path_iff_documents_witness :
  ready (ready_bot 50) = true
  /\ exists b,
      firstn 2
        (observed all_well "What is Article 14?" (ready_bot 50) (at_time 100))
      = [(SimilaritySearch "What is Article 14?" 6, true);
         (GenerateContent
            (_create_rag_prompt "What is Article 14?"
               (_prepare_context [article_14; article_21])),
          b)].
Proof.
  split.
  - reflexivity.
  - destruct (rag_path_iff_documents all_well "What is Article 14?"
                (ready_bot 50) (at_time 100) eq_refl) as (_ & Hrag & _).
    apply (Hrag article_14 [article_21]). reflexivity.
Defined.

(** ** The shapes of the result *)

Section Shapes.

Variable env : Env.
Variable question : string.

Lemma fallback_outcome :
  yields (Outcome env question) (_fallback_approach env question).
Proof.
  intros s w. unfold _fallback_approach. run_monad.
  destruct (vector_store s) as [v |].
  - destruct (similarity_search env (now w) (calls w) question 3)
      as [[| d ds] | e] eqn:E; eexists; (split; [reflexivity |]).
    + apply Out_no_documents.
    + apply Out_digest; [exists (now w), (calls w); exact E | discriminate].
    + apply Out_unavailable.
  - eexists. split; [reflexivity | apply Out_unavailable].
Qed.

Lemma direct_outcome :
  yields (Outcome env question) (_direct_gemini_approach env question).
Proof.
  intros s w. unfold _direct_gemini_approach. run_monad.
  destruct (client s) as [c |].
  - destruct (generate_content env (now w) (calls w)
                (_create_direct_prompt question)) as [response | e];
      cbv beta iota.
    + destruct (text response) as [generated | e].
      * eexists. split; [reflexivity | apply Out_direct].
      * apply fallback_outcome.
    + apply fallback_outcome.
  - apply fallback_outcome.
Qed.

Lemma rag_outcome (docs : list Document) :
  retrieved env question 6 docs -> docs <> [] ->
  yields (Outcome env question) (_rag_approach env question docs).
Proof.
  intros Hdocs Hne s w. unfold _rag_approach. run_monad.
  destruct (client s) as [c |].
  - destruct (generate_content env (now w) (calls w)
                (_create_rag_prompt question (_prepare_context docs)))
      as [response | e]; cbv beta iota.
    + destruct (text response) as [generated | e]; cbv beta iota.
      * destruct (_format_rag_answer generated docs) as [fa | e] eqn:E.
        -- eexists. split; [reflexivity |].
           exact (Out_rag env question _ _ docs Hdocs Hne E).
        -- apply direct_outcome.
      * apply direct_outcome.
    + apply direct_outcome.
  - apply direct_outcome.
Qed.

Lemma query_body_outcome (s : Chatbot) (w : World) :
  match value (query_body env question s w) with
  | Ok r => Outcome env question r
  | Raise _ => True
  end.
Proof.
  unfold query_body. unfold bind at 1. rewrite rate_limit_run. run_monad.
  destruct (vector_store s) as [v |]; [| exact I].
  match goal with
  | |- context [similarity_search env ?t ?h question 6] =>
      destruct (similarity_search env t h question 6)
        as [[| d ds] | e] eqn:E
  end; cbv beta iota.
  - match goal with
    | |- context [_direct_gemini_approach env question ?s0 ?w0] =>
        destruct (direct_outcome s0 w0) as (r & Hv & Ho)
    end.
    rewrite Hv. exact Ho.
  - assert (Hne : d :: ds <> []) by discriminate.
    match goal with
    | |- context [_rag_approach env question ?ds0 ?s0 ?w0] =>
        destruct (rag_outcome ds0 (ex_intro _ _ (ex_intro _ _ E)) Hne s0 w0)
          as (r & Hv & Ho)
    end.
    rewrite Hv. exact Ho.
  - exact I.
Qed.

Lemma query_outcome : yields (Outcome env question) (query env question).
Proof.
  intros s w. unfold query. unfold bind at 1. unfold self at 1.
  unfold bind at 1.
  assert (Hguard : forall s' w',
             exists r,
               value (try_except (query_body env question)
                        (fun e =>
                           logger ERROR ("Query failed: " ++ str_exn e) ;;
                           _fallback_approach env question) s' w') = Ok r
               /\ Outcome env question r).
  { intros s' w'. unfold try_except.
    pose proof (query_body_outcome s' w') as Ho.
    destruct (query_body env question s' w') as [[[r | e] s0] w0];
      unfold value in Ho; cbn [fst] in Ho.
    - exists r. split; [reflexivity | exact Ho].
    - run_monad. apply fallback_outcome. }
  destruct (negb (_initialized s)).
  - destruct (initialize_never_raises env s w) as [b Hb].
    destruct (initialize env s w) as [[r0 s0] w0].
    unfold value in Hb. cbn [fst] in Hb. subst r0.
    destruct b; cbn [negb].
    + apply Hguard.
    + eexists. split; [reflexivity | apply Out_init_failed].
  - unfold ret at 1. cbn [negb]. apply Hguard.
Qed.

(** C9.  Whatever the state and the services, the result of [query] has one
    of six shapes: the initialization-failure message, the RAG answer with
    the whole retrieved set as sources, the direct answer, the digest of
    the reduced search with that set as sources, or one of the two static
    terminal messages.  Its sources are non-empty only in the RAG shape
    and the digest shape; the direct answer, the initialization-failure
    message and both terminal messages carry an empty list. *)
Theorem sources_only_from_rag_or_digest (s : Chatbot) (w : World) :
  exists r,
    value (query env question s w) = Ok r
    /\ Outcome env question r
    /\ (source_documents r <> [] ->
        (retrieved env question 6 (source_documents r)
         /\ exists generated,
             _format_rag_answer generated (source_documents r)
               = Ok (answer r))
        \/ (retrieved env question 3 (source_documents r)
            /\ r = document_digest question (source_documents r)))
    /\ source_documents initialization_failed = []
    /\ source_documents (no_documents_found question) = []
    /\ source_documents system_unavailable = []
    /\ (forall generated,
          r = {| answer := _format_direct_answer generated question;
                 source_documents := [] |} ->
          source_documents r = []).
Proof.
  destruct (query_outcome s w) as (r & Hv & Ho).
  exists r. split; [exact Hv |]. split; [exact Ho |].
  split; [| repeat split; intros; subst; reflexivity].
  intros Hne. destruct Ho as [| g fa docs Hd Hn Hf | g | docs Hd Hn | |].
  - elim Hne. reflexivity.
  - left. split; [exact Hd | exists g; exact Hf].
  - elim Hne. reflexivity.
  - right. split; [exact Hd | reflexivity].
  - elim Hne. reflexivity.
  - elim Hne. reflexivity.
Qed.

End Shapes.

(** ** The digest of one document *)

Lemma length_append (a b : string) :
  String.length (a ++ b) = String.length a + String.length b.
Proof. induction a as [| c a IH]; simpl; [reflexivity | now rewrite IH]. Qed.

Lemma append_assoc (a b c : string) : (a ++ b) ++ c = a ++ b ++ c.
Proof. induction a as [| x a IH]; simpl; [reflexivity | now rewrite IH]. Qed.

Lemma length_lstrip (s : string) : String.length (lstrip s) <= String.length s.
Proof.
  induction s as [| c s IH]; simpl; [lia |].
  destruct (is_space c); simpl; lia.
Qed.

Lemma length_rstrip (s : string) : String.length (rstrip s) <= String.length s.
Proof.
  induction s as [| c s IH]; simpl; [lia |].
  destruct (is_space c && is_empty (rstrip s)); simpl; lia.
Qed.

(** Trailing whitespace does not survive [rstrip]. *)
Lemma rstrip_app_space (s : string) (c : ascii) :
  is_space c = true -> rstrip (s ++ String c "") = rstrip s.
Proof.
  intros Hc. induction s as [| a s IH]; simpl.
  - rewrite Hc. reflexivity.
  - rewrite IH. reflexivity.
Qed.

Lemma lstrip_app_space (s : string) (c : ascii) :
  is_space c = true ->
  lstrip (s ++ String c "") =
    if is_empty (lstrip s) then "" else lstrip s ++ String c "".
Proof.
  intros Hc. induction s as [| a s IH]; simpl.
  - rewrite Hc. reflexivity.
  - destruct (is_space a); [exact IH | reflexivity].
Qed.

Lemma length_strip_app_space (s : string) (c : ascii) :
  is_space c = true ->
  String.length (strip (s ++ String c "")) <= String.length s.
Proof.
  intros Hc. unfold strip. rewrite lstrip_app_space by exact Hc.
  destruct (is_empty (lstrip s)).
  - simpl. lia.
  - rewrite rstrip_app_space by exact Hc.
    pose proof (length_rstrip (lstrip s)). pose proof (length_lstrip s). lia.
Qed.

(** What the loop has gathered is empty, or ends with the space it appends
    after each sentence and is, that space apart, within the cap. *)
Lemma take_sentences_shape (sentences : list string) (max_length : nat) :
  forall summary,
    (summary = ""
     \/ exists s, summary = s ++ " " /\ String.length s <= max_length) ->
    take_sentences sentences summary max_length = ""
    \/ exists s,
        take_sentences sentences summary max_length = s ++ " "
        /\ String.length s <= max_length.
Proof.
  induction sentences as [| sentence rest IH]; intros summary Hs; simpl.
  - exact Hs.
  - destruct (negb (is_empty (strip sentence))
              && (String.length (summary ++ sentence) <? max_length)%nat)
      eqn:E; [| exact Hs].
    apply IH. right. exists (summary ++ sentence ++ ".").
    apply andb_prop in E. destruct E as [_ E].
    apply Nat.ltb_lt in E. split.
    + change ". " with ("." ++ " "). now rewrite <- !append_assoc.
    + rewrite <- append_assoc, length_append. simpl. lia.
Qed.

(** The result of [_summarize_content] never has more than two characters
    over [max_length]; the failing run of C5 reaches that bound. *)
Lemma summary_within_two_of_cap (content : string) (max_length : nat) :
  String.length (_summarize_content content max_length) <= max_length + 2.
Proof.
  unfold _summarize_content.
  destruct (String.length content <=? max_length)%nat eqn:E.
  - apply Nat.leb_le in E. lia.
  - assert (H : String.length
                  (strip (take_sentences (split "." content) "" max_length))
                <= max_length).
    { destruct (take_sentences_shape (split "." content) max_length ""
                  (or_introl eq_refl)) as [H | (s & H & Hl)]; rewrite H.
      - simpl. lia.
      - pose proof (length_strip_app_space s " " eq_refl). lia. }
    destruct (String.length
                (strip (take_sentences (split "." content) "" max_length))
              <? String.length content)%nat.
    + rewrite length_append. simpl. lia.
    + lia.
Qed.


(** ** The citation footer *)

Lemma set_int_pages (l : list Z) :
  exists l',
    set (map PInt l) = map PInt l'
    /\ NoDup l'
    /\ forall z, In z l' <-> In z l.
Proof.
  induction l as [| x l (l' & Hs & Hn & Hi)]; simpl.
  - exists []. repeat split; [constructor | intros [] | intros []].
  - destruct (existsb (PyVal_eqb (PInt x)) (map PInt l)) eqn:E.
    + exists l'. split; [exact Hs | split; [exact Hn |]].
      intros z. rewrite Hi. split; [now right |].
      intros [Hz | Hz]; [| exact Hz]. subst z.
      apply existsb_exists in E. destruct E as (v & Hv & Heq).
      apply in_map_iff in Hv. destruct Hv as (y & Hy & Hin). subst v.
      simpl in Heq. apply Z.eqb_eq in Heq. now subst y.
    + exists (x :: l'). split; [simpl; now rewrite Hs | split].
      * constructor; [| exact Hn]. rewrite Hi. intros Hin.
        assert (existsb (PyVal_eqb (PInt x)) (map PInt l) = true); [| congruence].
        apply existsb_exists. exists (PInt x). split.
        -- now apply in_map.
        -- simpl. apply Z.eqb_refl.
      * intros z. simpl. now rewrite Hi.
Qed.

Lemma insert_int_page (x : Z) (r : list Z) :
  StronglySorted Z.lt r -> ~ In x r ->
  exists r',
    insert (PInt x) (map PInt r) = Ok (map PInt r')
    /\ StronglySorted Z.lt r'
    /\ forall z, In z r' <-> z = x \/ In z r.
Proof.
  induction r as [| y r IH]; intros Hs Hx; simpl.
  - exists [x]. split; [reflexivity | split].
    + repeat constructor.
    + intros z. simpl. intuition.
  - apply StronglySorted_inv in Hs. destruct Hs as [Hs Hy].
    destruct (x <? y)%Z eqn:E.
    + apply Z.ltb_lt in E. exists (x :: y :: r).
      split; [reflexivity | split].
      * constructor; [constructor; assumption |].
        constructor; [exact E |].
        eapply Forall_impl; [| exact Hy]. intros z Hz. cbv beta in Hz. lia.
      * intros z. simpl. intuition.
    + apply Z.ltb_ge in E.
      assert (Hlt : (y < x)%Z).
      { destruct (Z.eq_dec x y) as [-> | Hne]; [elim Hx; now left | lia]. }
      destruct (IH Hs (fun H => Hx (or_intror H))) as (r' & Hr & Hs' & Hi).
      rewrite Hr. exists (y :: r'). split; [reflexivity | split].
      * constructor; [exact Hs' |].
        apply Forall_forall. intros z Hz. apply Hi in Hz.
        destruct Hz as [-> | Hz]; [exact Hlt |].
        rewrite Forall_forall in Hy. now apply Hy.
      * intros z. simpl. rewrite Hi. intuition.
Qed.

Lemma sorted_int_pages (l : list Z) :
  NoDup l ->
  exists r,
    sorted (map PInt l) = Ok (map PInt r)
    /\ StronglySorted Z.lt r
    /\ forall z, In z r <-> In z l.
Proof.
  induction l as [| x l IH]; intros Hn; simpl.
  - exists []. repeat split; [constructor | intros [] | intros []].
  - apply NoDup_cons_iff in Hn. destruct Hn as [Hx Hn].
    destruct (IH Hn) as (r & Hr & Hs & Hi). rewrite Hr.
    assert (Hx' : ~ In x r) by now rewrite Hi.
    destruct (insert_int_page x r Hs Hx') as (r' & Hr' & Hs' & Hi').
    exists r'. split; [exact Hr' | split; [exact Hs' |]].
    intros z. rewrite Hi', Hi. simpl. intuition.
Qed.

(** When every page is a number, the pages of the footer are the distinct
    page numbers in strictly ascending order. *)
Lemma footer_pages_ascending (l : list Z) :
  exists r,
    sorted (set (map PInt l)) = Ok (map PInt r)
    /\ StronglySorted Z.lt r
    /\ forall z, In z r <-> In z l.
Proof.
  destruct (set_int_pages l) as (l' & Hs & Hn & Hi). rewrite Hs.
  destruct (sorted_int_pages l' Hn) as (r & Hr & Hs' & Hi').
  exists r. split; [exact Hr | split; [exact Hs' |]].
  intros z. now rewrite Hi', Hi.
Qed.

(** C8 fails on the code.  Retrieval returns two documents, one with page 3
    and one without a page, and the generation call of the RAG path returns:
    sorting the pages [3] and ['N/A'] raises [TypeError], the handler of the
    RAG path takes the direct path, and the result is the direct answer with
    no source and no footer. *)
Theorem rag_answer_lost_on_mixed_pages :
  search_at mixed_pages (at_time 100) "What is cheating?" 6
    = Ok [article_14; section_420]
  /\ map (fun r => (is_generation (call r), returned r))
       (calls_since (at_time 100)
          (query mixed_pages "What is cheating?" (ready_bot 50) (at_time 100)))
     = [(false, true); (true, true); (true, true)]
  /\ _format_rag_answer "From the documents." [article_14; section_420]
     = Raise (Exn "TypeError"
                "'<' not supported between instances of 'int' and 'str'")
  /\ value (query mixed_pages "What is cheating?" (ready_bot 50) (at_time 100))
     = Ok {| answer :=
               _format_direct_answer "From general knowledge."
                 "What is cheating?";
             source_documents := [] |}.
Proof. repeat split; vm_compute; reflexivity. Qed.

(** When the pages of the retrieved documents can be sorted and the text of
    the response can be read, the claim holds: the sources are the
    retrieved documents and the answer ends with the footer that lists the
    first five distinct pages and the number of documents. *)
Lemma rag_answer_when_pages_sort (env : Env) (question : string)
  (s : Chatbot) (w : World) (d : Document) (ds : list Document)
  (response : Response) (generated : string) (pages : list PyVal) :
  ready s = true ->
  search_at env (at_search question s w) question 6 = Ok (d :: ds) ->
  (forall w', generate_at env w'
                (_create_rag_prompt question (_prepare_context (d :: ds)))
              = Ok response) ->
  text response = Ok generated ->
  sorted (set (map page_of (d :: ds))) = Ok pages ->
  value (query env question s w) =
    Ok {| answer :=
            generated ++ nl ++ nl
              ++ "---" ++ nl
              ++ "**📚 Source Information:**" ++ nl
              ++ "• **Source:** Pinecone Legal Database" ++ nl
              ++ "• **Relevant Pages:** "
              ++ join ", " (map str (firstn 5 pages)) ++ nl
              ++ "• **Documents Analyzed:** "
              ++ str_of_nat (length (d :: ds)) ++ nl;
          source_documents := d :: ds |}.
Proof.
  intros Hr Hs Hg Ht Hp. destruct (ready_handles s Hr) as (Hi & Hv & Hc).
  rewrite query_run by exact Hr. cbv zeta. rewrite Hs.
  rewrite rag_run by exact Hc. cbv zeta. rewrite Hg.
  unfold rag_answer_of, _format_rag_answer. rewrite Ht, Hp. reflexivity.
Qed.

(** ** The index check *)

(** C10.  When the listing of indexes fails, [check_index_exists] returns
    [False] and raises nothing.  [initialize] then fails exactly as it does
    in any environment whose listing answers without the index: same return
    value, same orchestrator state, same logger records, ending with the
    "index not found" error; and [query] returns the initialization-failure
    message.  (Only the line that [check_index_exists] prints to the console
    tells the two apart.) *)
Theorem failed_index_check_reads_as_missing (env : Env) (question : string)
  (s : Chatbot) (w : World) (e : exn) :
  _initialized s = false ->
  listing_at env w = Raise e ->
  (forall vm s', value (check_index_exists env vm s' w) = Ok false)
  /\ (forall env' names,
        listing_at env' w = Ok names ->
        existsb (String.eqb (index_name (vector_manager s))) names = false ->
        value (initialize env s w) = value (initialize env' s w)
        /\ bot (initialize env s w) = bot (initialize env' s w)
        /\ logs (world (initialize env s w))
           = logs (world (initialize env' s w)))
  /\ value (initialize env s w) = Ok false
  /\ logs (world (initialize env s w))
     = (logs w
          ++ [(INFO, "Step 1: Loading Pinecone vector store...");
              (ERROR,
               "Initialization failed: Pinecone index not found. Please initialize vector store first.")])%list
  /\ value (query env question s w) = Ok initialization_failed.
Proof.
  intros Hi Hl. unfold listing_at in Hl.
  assert (Hinit : initialize env s w =
                    (Ok false, s,
                     logged ERROR
                       "Initialization failed: Pinecone index not found. Please initialize vector store first."
                       (printed ("Error checking index existence: " ++ str_exn e)
                          (after_call env ListIndexes (@Raise (list string) e)
                             (logged INFO "Step 1: Loading Pinecone vector store..."
                                w))))).
  { unfold initialize, check_index_exists, listed, print. run_monad.
    rewrite Hi. cbn [logged now calls]. rewrite Hl. reflexivity. }
  split; [| split; [| split; [| split]]].
  - intros vm s'. unfold check_index_exists, listed, print. run_monad.
    rewrite Hl. reflexivity.
  - intros env' names Hl' Hn. unfold listing_at in Hl'.
    rewrite Hinit.
    unfold initialize, check_index_exists, listed, print. run_monad.
    rewrite Hi. cbn [logged now calls]. rewrite Hl'. cbv beta iota.
    rewrite Hn. repeat split.
  - rewrite Hinit. reflexivity.
  - rewrite Hinit. unfold world. cbn [snd logs logged printed after_call answered].
    rewrite <- app_assoc. reflexivity.
  - unfold query. unfold bind at 1. unfold self at 1. unfold bind at 1.
    rewrite Hi. cbn [negb]. rewrite Hinit. reflexivity.
Qed.

(** C10 at a fresh orchestrator whose index listing times out. *)
Lemma failed_index_check_reads_as_missing_witness :
  _initialized fresh_bot = false
  /\ listing_at listing_down (at_time 100) = Raise timeout_error
  /\ value (check_index_exists listing_down (vector_manager fresh_bot)
              fresh_bot (at_time 100)) = Ok false.
Proof.
  split; [reflexivity |]. split; [reflexivity |].
  destruct (failed_index_check_reads_as_missing listing_down "What is bail?"
              fresh_bot (at_time 100) timeout_error eq_refl eq_refl)
    as (Hcheck & _).
  apply Hcheck.
Defined.

(** ** The example scenarios of the specification *)

(** Two documents on pages 3 and 7, generation succeeds: the answer ends
    with the footer citing "3, 7" and both documents are the sources. *)
Example article_14_scenario :
  value (query all_well "What is Article 14?" (ready_bot 50) (at_time 100))
  = Ok {| answer :=
            "Article 14 guarantees equality." ++ nl ++ nl
              ++ "---" ++ nl
              ++ "**📚 Source Information:**" ++ nl
              ++ "• **Source:** Pinecone Legal Database" ++ nl
              ++ "• **Relevant Pages:** 3, 7" ++ nl
              ++ "• **Documents Analyzed:** 2" ++ nl;
          source_documents := [article_14; article_21] |}.
Proof. vm_compute. reflexivity. Qed.

(** No document, generation succeeds: no source, and the answer carries the
    general-knowledge note. *)
Example no_match_scenario :
  value (query no_match "foo bar baz" (ready_bot 50) (at_time 100))
  = Ok {| answer :=
            _format_direct_answer "Nothing in the corpus says so."
              "foo bar baz";
          source_documents := [] |}.
Proof. vm_compute. reflexivity. Qed.

(** Retrieval fails in [query] and again in the terminal stage: the answer is
    the "temporarily unavailable" text, with no source. *)
Example retrieval_down_scenario :
  value (query retrieval_down "What is bail?" (ready_bot 50) (at_time 100))
  = Ok system_unavailable.
Proof. vm_compute. reflexivity. Qed.

(** A first query on a fresh orchestrator initializes it: the index is
    listed twice and opened, the generation service is tried once, and only
    then come the search and the generation call of the query. *)
Example first_query_initializes :
  observed first_use "foo bar baz" fresh_bot (at_time 100)
  = [(ListIndexes, true); (ListIndexes, true);
     (FromExistingIndex the_index, true);
     (GenerateContent "Say hello", true);
     (SimilaritySearch "foo bar baz" 6, true);
     (GenerateContent (_create_direct_prompt "foo bar baz"), true)]
  /\ _initialized (bot (query first_use "foo bar baz" fresh_bot (at_time 100)))
     = true
  /\ value (query first_use "foo bar baz" fresh_bot (at_time 100))
     = Ok {| answer :=
               _format_direct_answer "Nothing in the corpus says so."
                 "foo bar baz";
             source_documents := [] |}.
Proof. repeat split; vm_compute; reflexivity. Qed.

(** * Further properties *)

(** ** Opening the store and searching it directly *)

Lemma calls_printed (msg : string) (w : World) :
  calls (printed msg w) = calls w.
Proof. reflexivity. Qed.

#[local] Hint Rewrite calls_printed : trace.

Lemma get_vector_store_run (env : Env) (vm : VectorStoreManager) (s : Chatbot)
  (w : World) :
  get_vector_store env vm s w =
    let w1 := printed "Loading Pinecone vector store..." w in
    let l := listing_at env w in
    let w2 := after_call env ListIndexes l w1 in
    match l with
    | Raise e =>
        (Raise (Exn "Exception" ("Failed to get vector store: " ++ str_exn e)),
         s, w2)
    | Ok names =>
        if existsb (String.eqb (index_name vm)) names
        then
          let o := from_existing_index env (now w2) (calls w2) (index_name vm) in
          let w3 := after_call env (FromExistingIndex (index_name vm)) o w2 in
          match o with
          | Ok store =>
              (Ok store, s,
               printed "Pinecone vector store loaded successfully!" w3)
          | Raise e =>
              (Raise (Exn "Exception"
                        ("Failed to get vector store: " ++ str_exn e)),
               s, w3)
          end
        else
          (Raise (Exn "Exception"
                    "Failed to get vector store: No vector store found. Please create vector store first."),
           s, w2)
    end.
Proof.
  unfold get_vector_store, listed, print, listing_at. run_monad.
  cbn [printed now calls].
  destruct (list_indexes env (now w) (calls w)) as [names | e];
    [| reflexivity].
  cbv beta iota.
  destruct (existsb (String.eqb (index_name vm)) names); [| reflexivity].
  cbn [negb]. cbv beta iota zeta.
  unfold after_call. cbn [answered printed now calls is_ok].
  match goal with
  | |- context [from_existing_index env ?t ?h ?n] =>
      destruct (from_existing_index env t h n) as [store | e]
  end; reflexivity.
Qed.

(** X1.  [get_vector_store] returns the handle only when the listing
    answered with the index and the opening succeeded, after exactly those
    two calls.  Everything else leaves it as an [Exception] whose message
    starts with "Failed to get vector store: "; a listing without the index
    gives the "No vector store found" cause without any attempt to open. *)
Theorem get_vector_store_wraps_failures (env : Env) (vm : VectorStoreManager)
  (s : Chatbot) (w : World) :
  match value (get_vector_store env vm s w) with
  | Ok store =>
      (exists names,
          listing_at env w = Ok names
          /\ existsb (String.eqb (index_name vm)) names = true)
      /\ map seen (calls_since w (get_vector_store env vm s w))
         = [(ListIndexes, true); (FromExistingIndex (index_name vm), true)]
  | Raise e =>
      exc_type e = "Exception"
      /\ exists cause, exc_msg e = "Failed to get vector store: " ++ cause
  end
  /\ (forall names,
        listing_at env w = Ok names ->
        existsb (String.eqb (index_name vm)) names = false ->
        value (get_vector_store env vm s w)
        = Raise (Exn "Exception"
                   "Failed to get vector store: No vector store found. Please create vector store first.")
        /\ map seen (calls_since w (get_vector_store env vm s w))
           = [(ListIndexes, true)]).
Proof.
  rewrite get_vector_store_run. cbv zeta. split.
  - destruct (listing_at env w) as [names | e] eqn:El.
    + destruct (existsb (String.eqb (index_name vm)) names) eqn:En.
      * match goal with
        | |- context [from_existing_index env ?t ?h ?n] =>
            destruct (from_existing_index env t h n) as [store | e]
        end; unfold value; cbn [fst].
        -- split; [exists names; split; [reflexivity | exact En] |].
           erewrite calls_since_app by read_calls. reflexivity.
        -- split; [reflexivity | eexists; reflexivity].
      * unfold value. cbn [fst]. split; [reflexivity | eexists; reflexivity].
    + unfold value. cbn [fst]. split; [reflexivity | eexists; reflexivity].
  - intros names El En. rewrite El, En. split; [reflexivity |].
    erewrite calls_since_app by read_calls. reflexivity.
Qed.

Lemma search_documents_run (env : Env) (vm : VectorStoreManager)
  (text_query : string) (k : nat) (s : Chatbot) (w : World) :
  search_documents env vm text_query k s w =
    match get_vector_store env vm s w with
    | (Ok (Some _), s1, w1) =>
        let r := search_at env w1 text_query k in
        let w2 := after_call env (SimilaritySearch text_query k) r w1 in
        match r with
        | Ok docs => (Ok docs, s1, w2)
        | Raise e => (Ok [], s1, printed ("Search error: " ++ str_exn e) w2)
        end
    | (Ok None, s1, w1) =>
        (Ok [], s1,
         printed
           "Search error: 'NoneType' object has no attribute 'similarity_search'"
           w1)
    | (Raise e, s1, w1) =>
        (Ok [], s1, printed ("Search error: " ++ str_exn e) w1)
    end.
Proof.
  unfold search_documents, store_similarity_search, print, search_at,
    after_call.
  cbv beta iota zeta delta [bind try_except raise ret invoke].
  destruct (get_vector_store env vm s w) as [[[[store |] | e] s1] w1];
    try reflexivity.
  destruct (similarity_search env (now w1) (calls w1) text_query k);
    reflexivity.
Qed.

(** X2.  [search_documents] never raises.  A result with documents is what
    the search returned, after the index was listed and the store opened:
    three calls for one search.  When the listing fails or lacks the index
    the result is the empty list, as it is for a search that matches
    nothing. *)
Theorem search_documents_collapses_failures (env : Env)
  (vm : VectorStoreManager) (text_query : string) (k : nat) (s : Chatbot)
  (w : World) :
  exists docs,
    value (search_documents env vm text_query k s w) = Ok docs
    /\ (docs <> [] ->
        retrieved env text_query k docs
        /\ map seen (calls_since w (search_documents env vm text_query k s w))
           = [(ListIndexes, true);
              (FromExistingIndex (index_name vm), true);
              (SimilaritySearch text_query k, true)])
    /\ (forall e, listing_at env w = Raise e -> docs = [])
    /\ (forall names,
          listing_at env w = Ok names ->
          existsb (String.eqb (index_name vm)) names = false ->
          docs = []).
Proof.
  rewrite search_documents_run, get_vector_store_run. cbv zeta.
  destruct (listing_at env w) as [names | e] eqn:El.
  - destruct (existsb (String.eqb (index_name vm)) names) eqn:En.
    + match goal with
      | |- context [from_existing_index env ?t ?h ?n] =>
          destruct (from_existing_index env t h n) as [[store |] | e]
      end.
      * match goal with
        | |- context [search_at env ?w0 text_query k] =>
            destruct (search_at env w0 text_query k) as [docs | e] eqn:Es
        end.
        -- exists docs. split; [reflexivity |]. split; [| split].
           ++ intros _. split.
              ** unfold search_at in Es. eexists. eexists. exact Es.
              ** erewrite calls_since_app by read_calls. reflexivity.
           ++ intros e H. discriminate H.
           ++ intros names' H H'. apply Ok_inj in H. subst names'.
              rewrite En in H'. discriminate H'.
        -- exists []. split; [reflexivity |].
           split; [intros H; elim H; reflexivity |]. split; reflexivity.
      * exists []. split; [reflexivity |].
        split; [intros H; elim H; reflexivity |]. split; reflexivity.
      * exists []. split; [reflexivity |].
        split; [intros H; elim H; reflexivity |]. split; reflexivity.
    + exists []. split; [reflexivity |].
      split; [intros H; elim H; reflexivity |]. split; reflexivity.
  - exists []. split; [reflexivity |].
    split; [intros H; elim H; reflexivity |]. split; reflexivity.
Qed.

(** ** Initialization *)

(** [initialize] on an orchestrator that is not initialized, by the answers
    of the services. *)
Lemma initialize_run (env : Env) (s : Chatbot) (w : World) :
  _initialized s = false ->
  initialize env s w =
    let w1 := logged INFO "Step 1: Loading Pinecone vector store..." w in
    let l := listing_at env w in
    let w2 := after_call env ListIndexes l w1 in
    match l with
    | Raise e =>
        gave_up "Pinecone index not found. Please initialize vector store first."
          s (printed ("Error checking index existence: " ++ str_exn e) w2)
    | Ok names =>
        if existsb (String.eqb (index_name (vector_manager s))) names
        then
          match get_vector_store env (vector_manager s) s w2 with
          | (Raise e, _, w3) => gave_up (str_exn e) s w3
          | (Ok None, _, w3) =>
              gave_up "Pinecone vector store could not be loaded"
                (set_vector_store None s) w3
          | (Ok (Some store), _, w3) =>
              let s1 := set_vector_store (Some store) s in
              let w4 :=
                logged INFO "Step 2: Initializing Gemini client..."
                  (logged INFO "✓ Pinecone vector store loaded successfully"
                     w3) in
              if not_set (GOOGLE_API_KEY env)
              then gave_up "GOOGLE_API_KEY not found in environment variables"
                     s1 w4
              else
                let s2 := set_client (Some (model_name s)) s1 in
                let g := generate_at env w4 "Say hello" in
                let w5 := after_call env (GenerateContent "Say hello") g w4 in
                match g with
                | Raise e => gave_up (str_exn e) s2 w5
                | Ok _ =>
                    (Ok true, set_initialized true s2,
                     logged INFO "✓ Smart Legal Chatbot fully initialized"
                       (logged INFO
                          ("✓ Gemini initialized successfully with model: "
                             ++ model_name s) w5))
                end
          end
        else
          gave_up "Pinecone index not found. Please initialize vector store first."
            s w2
    end.
Proof.
  intros Hi.
  unfold initialize, check_index_exists, listed, print, gave_up, listing_at,
    generate_at, after_call.
  run_monad. rewrite Hi. cbv beta iota zeta.
  cbn [logged printed answered now calls is_ok].
  destruct (list_indexes env (now w) (calls w)) as [names | e];
    [| reflexivity].
  cbv beta iota.
  destruct (existsb (String.eqb (index_name (vector_manager s))) names);
    [| reflexivity].
  cbn [negb]. cbv beta iota.
  match goal with
  | |- context [get_vector_store env ?vm ?s0 ?w0] =>
      assert (Hs : bot (get_vector_store env vm s0 w0) = s0)
        by (rewrite get_vector_store_run; cbv zeta;
            repeat match goal with
                   | |- context [match ?x with _ => _ end] => destruct x
                   end; reflexivity);
      destruct (get_vector_store env vm s0 w0) as [[[[store |] | e] s1] w3]
  end; unfold bot in Hs; cbn [fst snd] in Hs; subst s1; cbv beta iota;
    try reflexivity.
  destruct (not_set (GOOGLE_API_KEY env)); cbv beta iota; [reflexivity |].
  cbn [client set_client set_vector_store logged now calls].
  match goal with
  | |- context [generate_content env ?t ?h ?p] =>
      destruct (generate_content env t h p)
  end; reflexivity.
Qed.

(** Splits every [match] of the goal on the answer it inspects. *)
Ltac split_answers :=
  repeat match goal with
         | |- context [match ?x with _ => _ end] => destruct x eqn:?
         end.

(** Splits the goal on the answers of the services of [env] it mentions. *)
Ltac split_services env :=
  repeat match goal with
         | |- context [listing_at env ?w] =>
             destruct (listing_at env w) as [? | ?] eqn:?
         | |- context [existsb ?f ?l] => destruct (existsb f l) eqn:?
         | |- context [from_existing_index env ?t ?h ?n] =>
             destruct (from_existing_index env t h n) as [[? |] | ?] eqn:?
         | |- context [generate_at env ?w ?p] =>
             destruct (generate_at env w p) as [? | ?] eqn:?
         end.

Lemma initialize_flag (env : Env) (s : Chatbot) (w : World) :
  exists b,
    value (initialize env s w) = Ok b
    /\ _initialized (bot (initialize env s w)) = b.
Proof.
  destruct (_initialized s) eqn:Hi.
  - unfold initialize. run_monad. rewrite Hi. exists true.
    split; [reflexivity | exact Hi].
  - rewrite initialize_run by exact Hi. cbv zeta. unfold gave_up.
    split_answers; eexists; (split; [reflexivity |]);
      unfold bot; cbn [fst snd _initialized set_vector_store set_client
                         set_initialized];
      solve [exact Hi | reflexivity].
Qed.

(** X3.  [initialize] never raises, and what it returns is the value of the
    flag afterwards: [True] exactly when the orchestrator is initialized.
    It leaves the rate limiter alone: [last_call_time] and
    [min_call_interval] are as before, also after the trial generation
    call. *)
Theorem initialize_returns_its_flag (env : Env) (s : Chatbot) (w : World) :
  exists b,
    value (initialize env s w) = Ok b
    /\ _initialized (bot (initialize env s w)) = b
    /\ last_call_time (bot (initialize env s w)) = last_call_time s
    /\ min_call_interval (bot (initialize env s w)) = min_call_interval s
    /\ vector_manager (bot (initialize env s w)) = vector_manager s.
Proof.
  destruct (_initialized s) eqn:Hi.
  - unfold initialize. run_monad. rewrite Hi. exists true.
    repeat split. exact Hi.
  - rewrite initialize_run by exact Hi. cbv zeta. unfold gave_up.
    split_answers; eexists; (split; [reflexivity |]);
      unfold bot; cbn [fst snd _initialized last_call_time min_call_interval
                         vector_manager set_vector_store set_client
                         set_initialized];
      repeat split; exact Hi.
Qed.

(** X4.  Once [initialize] has succeeded, calling it again does nothing: in
    any environment it returns [True] at once, with no call, no log record
    and no change of state. *)
Theorem initialize_again_does_nothing (env env' : Env) (s : Chatbot)
  (w w' : World) :
  value (initialize env s w) = Ok true ->
  initialize env' (bot (initialize env s w)) w'
  = (Ok true, bot (initialize env s w), w').
Proof.
  intros H. destruct (initialize_flag env s w) as (b & Hv & Hf).
  rewrite Hv in H. apply Ok_inj in H. subst b.
  unfold initialize at 1. run_monad. rewrite Hf. reflexivity.
Qed.

(** X4 on a fresh orchestrator in an environment where everything
    answers. *)
Lemma initialize_again_does_nothing_witness :
  value (initialize first_use fresh_bot (at_time 100)) = Ok true
  /\ initialize retrieval_down
       (bot (initialize first_use fresh_bot (at_time 100))) (at_time 200)
     = (Ok true, bot (initialize first_use fresh_bot (at_time 100)),
        at_time 200).
Proof.
  split.
  - vm_compute. reflexivity.
  - apply initialize_again_does_nothing. vm_compute. reflexivity.
Defined.

(** X5.  Without [GOOGLE_API_KEY], [initialize] fails without ever calling
    the generation service and without setting [client]; the key is looked
    for only after the index was listed twice and the store opened, and the
    store handle stays in place although the orchestrator is not
    initialized. *)
Theorem initialize_without_google_key (env : Env) (s : Chatbot) (w : World) :
  not_set (GOOGLE_API_KEY env) = true ->
  _initialized s = false ->
  value (initialize env s w) = Ok false
  /\ client (bot (initialize env s w)) = client s
  /\ forallb (fun r => negb (is_generation (call r)))
       (calls_since w (initialize env s w)) = true
  /\ (vector_store (bot (initialize env s w)) <> vector_store s ->
      map seen (calls_since w (initialize env s w))
      = [(ListIndexes, true); (ListIndexes, true);
         (FromExistingIndex (index_name (vector_manager s)), true)]).
Proof.
  intros Hk Hi. rewrite initialize_run by exact Hi. cbv zeta.
  rewrite Hk. unfold gave_up.
  destruct (listing_at env w) as [names | e].
  - destruct (existsb (String.eqb (index_name (vector_manager s))) names).
    + rewrite get_vector_store_run. cbv zeta.
      split_services env; unfold value, bot;
        cbn [fst snd client set_vector_store];
        (split; [reflexivity |]); (split; [reflexivity |]);
        (erewrite calls_since_app by read_calls);
        (split; [reflexivity |]);
        cbn [vector_store set_vector_store];
        solve [intros _; reflexivity | intros H; elim H; reflexivity].
    + unfold value, bot. cbn [fst snd].
      erewrite calls_since_app by read_calls.
      repeat split. intros H. elim H. reflexivity.
  - unfold value, bot. cbn [fst snd].
    erewrite calls_since_app by read_calls.
    repeat split. intros H. elim H. reflexivity.
Qed.

(** X5 on a fresh orchestrator whose other services all answer. *)
Lemma initialize_without_google_key_witness :
  not_set (GOOGLE_API_KEY no_google_key) = true
  /\ _initialized fresh_bot = false
  /\ value (initialize no_google_key fresh_bot (at_time 100)) = Ok false.
Proof.
  split; [reflexivity |]. split; [reflexivity |].
  apply (initialize_without_google_key no_google_key fresh_bot (at_time 100));
    reflexivity.
Defined.

(** X6.  A successful [initialize] of an orchestrator that was not
    initialized has made exactly four calls, in this order: the index is
    listed (by [check_index_exists]), listed again and opened (by
    [get_vector_store]), and the generation service is asked to say hello.
    The client is then the model named in [model_name]. *)
Theorem initialize_makes_four_calls (env : Env) (s : Chatbot) (w : World) :
  _initialized s = false ->
  value (initialize env s w) = Ok true ->
  map seen (calls_since w (initialize env s w))
  = [(ListIndexes, true); (ListIndexes, true);
     (FromExistingIndex (index_name (vector_manager s)), true);
     (GenerateContent "Say hello", true)]
  /\ client (bot (initialize env s w)) = Some (model_name s)
  /\ vector_store (bot (initialize env s w)) <> None.
Proof.
  intros Hi. rewrite initialize_run by exact Hi. cbv zeta. unfold gave_up.
  destruct (listing_at env w) as [names | e];
    [| intros H; discriminate H].
  destruct (existsb (String.eqb (index_name (vector_manager s))) names);
    [| intros H; discriminate H].
  rewrite get_vector_store_run. cbv zeta.
  destruct (not_set (GOOGLE_API_KEY env));
    split_services env; try (intros H; discriminate H).
  intros _. erewrite calls_since_app by read_calls.
  unfold bot. cbn [fst snd client vector_store set_initialized set_client
                     set_vector_store].
  repeat split. discriminate.
Qed.

(** X6 on a fresh orchestrator in an environment where everything
    answers. *)
Lemma initialize_makes_four_calls_witness :
  _initialized fresh_bot = false
  /\ value (initialize first_use fresh_bot (at_time 100)) = Ok true
  /\ client (bot (initialize first_use fresh_bot (at_time 100)))
     = Some (model_name fresh_bot).
Proof.
  split; [reflexivity |]. split; [vm_compute; reflexivity |].
  apply (initialize_makes_four_calls first_use fresh_bot (at_time 100));
    [reflexivity | vm_compute; reflexivity].
Defined.

(** ** Queries before and after initialization *)

(** X7.  A query on an orchestrator whose initialization fails does nothing
    beyond that attempt: no wait, no search, no generation call of its own.
    It returns the initialization-failure message and leaves the
    orchestrator uninitialized, so that the next query tries again. *)
Theorem query_gives_up_with_initialize (env : Env) (question : string)
  (s : Chatbot) (w : World) :
  _initialized s = false ->
  value (initialize env s w) = Ok false ->
  query env question s w
  = (Ok initialization_failed, bot (initialize env s w),
     world (initialize env s w))
  /\ _initialized (bot (query env question s w)) = false.
Proof.
  intros Hi Hv.
  assert (E : query env question s w
              = (Ok initialization_failed, bot (initialize env s w),
                 world (initialize env s w))).
  { unfold query. unfold bind at 1. unfold self at 1. unfold bind at 1.
    rewrite Hi. cbn [negb].
    destruct (initialize env s w) as [[r s'] w'].
    unfold value in Hv. cbn [fst] in Hv. subst r. reflexivity. }
  split; [exact E |]. rewrite E. unfold bot at 1. cbn [fst snd].
  destruct (initialize_flag env s w) as (b & Hb & Hf).
  rewrite Hv in Hb. apply Ok_inj in Hb. subst b. exact Hf.
Qed.

(** X7 on a fresh orchestrator whose index listing times out. *)
Lemma query_gives_up_with_initialize_witness :
  _initialized fresh_bot = false
  /\ value (initialize listing_down fresh_bot (at_time 100)) = Ok false
  /\ _initialized
       (bot (query listing_down "What is bail?" fresh_bot (at_time 100)))
     = false.
Proof.
  split; [reflexivity |]. split; [vm_compute; reflexivity |].
  apply (query_gives_up_with_initialize listing_down "What is bail?"
           fresh_bot (at_time 100));
    [reflexivity | vm_compute; reflexivity].
Defined.

Lemma query_resumes_after_initialize (env : Env) (question : string)
  (s : Chatbot) (w : World) :
  _initialized s = false ->
  value (initialize env s w) = Ok true ->
  query env question s w
  = query env question (bot (initialize env s w)) (world (initialize env s w)).
Proof.
  intros Hi Hv.
  destruct (initialize_flag env s w) as (b & Hb & Hf).
  rewrite Hv in Hb. apply Ok_inj in Hb. subst b.
  unfold query. unfold bind at 1 3. unfold self at 1 2.
  unfold bind at 1 2. rewrite Hi, Hf. cbn [negb].
  destruct (initialize env s w) as [[r s'] w'].
  unfold value in Hv. cbn [fst] in Hv. subst r. reflexivity.
Qed.

(** X8.  A first query on an orchestrator that is not initialized is its
    initialization followed by the query: when [initialize] succeeds, the
    query goes on exactly as a query on the initialized orchestrator would
    from there. *)
Theorem first_query_is_initialize_then_query (env : Env) (question : string)
  (s : Chatbot) (w : World) :
  _initialized s = false ->
  value (initialize env s w) = Ok true ->
  query env question s w
  = query env question (bot (initialize env s w)) (world (initialize env s w))
  /\ ready (bot (initialize env s w)) = true.
Proof.
  intros Hi Hv. split.
  - apply query_resumes_after_initialize; assumption.
  - apply initialize_makes_ready; assumption.
Qed.

(** X8 on a fresh orchestrator in an environment where everything
    answers. *)
Lemma first_query_is_initialize_then_query_witness :
  _initialized fresh_bot = false
  /\ value (initialize first_use fresh_bot (at_time 100)) = Ok true
  /\ ready (bot (initialize first_use fresh_bot (at_time 100))) = true.
Proof.
  split; [reflexivity |]. split; [vm_compute; reflexivity |].
  apply (first_query_is_initialize_then_query first_use "foo bar baz"
           fresh_bot (at_time 100));
    [reflexivity | vm_compute; reflexivity].
Defined.

(** ** What a query on an initialized orchestrator changes and costs *)

(** X9.  A query on an initialized orchestrator changes nothing of it but
    [last_call_time]: the handles, the flag, the model name and the interval
    are as before, and the orchestrator is still initialized. *)
Theorem query_changes_only_the_timestamp (env : Env) (question : string)
  (s : Chatbot) (w : World) :
  ready s = true ->
  bot (query env question s w)
  = set_last_call_time (last_call_time (bot (query env question s w))) s
  /\ ready (bot (query env question s w)) = true.
Proof.
  intros Hr. destruct (ready_handles s Hr) as (Hi & Hv & Hc).
  assert (Hs : set_last_call_time (last_call_time s) s = s)
    by (destruct s; reflexivity).
  walk_query env question s w Hr Hv Hc;
    unfold bot; cbn [fst snd last_call_time set_last_call_time];
    (split; [solve [symmetry; exact Hs | reflexivity] | exact Hr]).
Qed.

(** X9 on the run whose RAG generation call returns. *)
Lemma query_changes_only_the_timestamp_witness :
  ready (ready_bot 50) = true
  /\ ready (bot (query all_well "What is Article 14?" (ready_bot 50)
                   (at_time 100))) = true.
Proof.
  split; [reflexivity |].
  apply (query_changes_only_the_timestamp all_well "What is Article 14?"
           (ready_bot 50) (at_time 100)).
  reflexivity.
Defined.

(** X10.  A query on an initialized orchestrator makes at least two and at
    most four calls to the hosted services: at most two generation calls
    and at most two searches, and it never lists or opens the index. *)
Theorem query_makes_two_to_four_calls (env : Env) (question : string)
  (s : Chatbot) (w : World) :
  ready s = true ->
  2 <= length (observed env question s w) <= 4
  /\ count_calls is_generation (observed env question s w) <= 2
  /\ 1 <= count_calls is_search (observed env question s w) <= 2
  /\ count_calls (fun c => negb (is_generation c || is_search c))
       (observed env question s w) = 0.
Proof.
  intros Hr. pose proof (query_traces env question s w Hr) as Hcases.
  cbv zeta in Hcases.
  destruct (search_at env (at_search question s w) question 6)
    as [[| d ds] | e6].
  - destruct Hcases as (l & l' & E & _ & Hd). rewrite E.
    stage_cases Hd;
      cbn [count_calls filter length fst is_generation is_search negb orb];
      lia.
  - destruct Hcases as [[E _] | (bR & bR' & l & l' & E & _ & _ & Hd)];
      rewrite E; [| stage_cases Hd];
      cbn [count_calls filter length fst is_generation is_search negb orb];
      lia.
  - destruct Hcases as (b & E & _). rewrite E.
    cbn [count_calls filter length fst is_generation is_search negb orb].
    lia.
Qed.

(** X10 on the run whose two generation calls fail: four calls. *)
Lemma query_makes_two_to_four_calls_witness :
  ready (ready_bot 50) = true
  /\ count_calls is_generation
       (observed generation_down "What is bail?" (ready_bot 50) (at_time 100))
     <= 2.
Proof.
  split; [reflexivity |].
  apply (query_makes_two_to_four_calls generation_down "What is bail?"
           (ready_bot 50) (at_time 100)).
  reflexivity.
Defined.

Lemma now_after_call {A} (env : Env) (c : Call) (r : res A) (w : World) :
  now (after_call env c r w) = (now w + latency env (now w) (calls w) c)%Q.
Proof. reflexivity. Qed.

Lemma now_at_search (question : string) (s : Chatbot) (w : World) :
  now (at_search question s w) = now (waited s w).
Proof. reflexivity. Qed.

(** Records that each latency the goal mentions is not negative. *)
Ltac note_latencies env Hlat :=
  repeat match goal with
         | |- context [latency env ?t ?h ?c] =>
             lazymatch goal with
             | _ : (0 <= latency env t h c)%Q |- _ => fail
             | _ => pose proof (Hlat t h c)
             end
         end.

(** X11.  With services that take no negative time and an interval that is
    not negative, a query on an initialized orchestrator never moves
    [last_call_time] back and never sets it ahead of the clock; the clock
    itself never goes back. *)
Theorem timestamp_never_goes_back (env : Env) (question : string)
  (s : Chatbot) (w : World) :
  (forall t h c, (0 <= latency env t h c)%Q) ->
  (0 <= min_call_interval s)%Q ->
  ready s = true ->
  (last_call_time s <= last_call_time (bot (query env question s w)))%Q
  /\ (last_call_time (bot (query env question s w))
      <= now (world (query env question s w)))%Q
  /\ (now w <= now (world (query env question s w)))%Q.
Proof.
  intros Hlat Hmin Hr. destruct (ready_handles s Hr) as (Hi & Hv & Hc).
  pose proof (now_waited s w) as [Hw1 Hw2].
  walk_query env question s w Hr Hv Hc;
    unfold bot, world; cbn [fst snd last_call_time set_last_call_time];
    rewrite ?now_logged, ?now_after_call, ?now_logged, ?now_after_call,
      ?now_logged, ?now_after_call, ?now_logged, ?now_after_call,
      ?now_logged, ?now_at_search;
    note_latencies env Hlat; repeat split; lra.
Qed.

(** X11 at a query made half a second after the last generation call. *)
Lemma timestamp_never_goes_back_witness :
  (forall t h c, (0 <= latency all_well t h c)%Q)
  /\ (0 <= min_call_interval (ready_bot (995 # 10)))%Q
  /\ ready (ready_bot (995 # 10)) = true
  /\ (last_call_time (ready_bot (995 # 10))
      <= last_call_time
           (bot (query all_well "What is Article 14?" (ready_bot (995 # 10))
                   (at_time 100))))%Q.
Proof.
  assert (H : forall t h c, (0 <= latency all_well t h c)%Q).
  { intros t h c. vm_compute. discriminate. }
  assert (H' : (0 <= min_call_interval (ready_bot (995 # 10)))%Q).
  { vm_compute. discriminate. }
  split; [exact H |]. split; [exact H' |]. split; [reflexivity |].
  apply (timestamp_never_goes_back all_well "What is Article 14?"
           (ready_bot (995 # 10)) (at_time 100) H H').
  reflexivity.
Defined.

(** ** The footer, for any pages *)

Lemma PyVal_eqb_eq (a b : PyVal) : PyVal_eqb a b = true <-> a = b.
Proof.
  destruct a as [x | x], b as [y | y]; simpl.
  - rewrite Z.eqb_eq. split; [intros -> | intros H; injection H]; auto.
  - split; discriminate.
  - split; discriminate.
  - rewrite String.eqb_eq. split; [intros -> | intros H; injection H]; auto.
Qed.

(** [set] keeps exactly the elements of the list. *)
Lemma in_set (l : list PyVal) (v : PyVal) : In v (set l) <-> In v l.
Proof.
  induction l as [| x l IH]; simpl; [reflexivity |].
  destruct (existsb (PyVal_eqb x) l) eqn:E; simpl; rewrite IH.
  - split; [now right |]. intros [-> | H]; [| exact H].
    apply existsb_exists in E. destruct E as (y & Hy & Heq).
    apply PyVal_eqb_eq in Heq. now subst y.
  - reflexivity.
Qed.

Lemma insert_same_kind (x : PyVal) (r : list PyVal) :
  (forall y, In y r -> is_int y = is_int x) ->
  exists r', insert x r = Ok r' /\ forall v, In v r' <-> v = x \/ In v r.
Proof.
  induction r as [| y r IH]; intros Hk; simpl.
  - exists [x]. split; [reflexivity |]. intros v. simpl. intuition.
  - assert (Hy : is_int y = is_int x) by (apply Hk; now left).
    assert (Hlt : exists b, lt x y = Ok b).
    { destruct x, y; simpl in Hy; try discriminate Hy; eexists; reflexivity. }
    destruct Hlt as [[|] Hlt]; rewrite Hlt.
    + exists (x :: y :: r). split; [reflexivity |]. intros v. simpl. intuition.
    + destruct (IH (fun z Hz => Hk z (or_intror Hz))) as (r' & Hr & Hi).
      rewrite Hr. exists (y :: r'). split; [reflexivity |].
      intros v. simpl. rewrite Hi. intuition.
Qed.

Lemma insert_other_kind (x y : PyVal) (r : list PyVal) :
  is_int y <> is_int x ->
  exists e, insert x (y :: r) = Raise e /\ exc_type e = "TypeError".
Proof.
  intros Hk. simpl.
  destruct x, y; simpl in Hk; try (elim Hk; reflexivity);
    eexists; split; reflexivity.
Qed.

(** [sorted] returns the elements it was given when they are all numbers or
    all strings, and raises [TypeError] when it was given both. *)
Lemma sorted_spec (l : list PyVal) :
  match sorted l with
  | Ok r =>
      (forall v, In v r <-> In v l)
      /\ forall x y, In x l -> In y l -> is_int x = is_int y
  | Raise e =>
      exc_type e = "TypeError"
      /\ exists x y, In x l /\ In y l /\ is_int x = true /\ is_int y = false
  end.
Proof.
  induction l as [| x l IH]; simpl.
  - split; [reflexivity | intros x y []].
  - destruct (sorted l) as [r | e].
    + destruct IH as [Hi Hk].
      destruct r as [| y0 r0].
      * simpl. split.
        -- intros v. rewrite <- Hi. simpl. intuition.
        -- assert (Hn : forall v, ~ In v l)
             by (intros v Hv; apply Hi in Hv; exact Hv).
           intros a b [-> | Ha] [-> | Hb];
             [reflexivity | elim (Hn _ Hb) | elim (Hn _ Ha) | elim (Hn _ Ha)].
      * destruct (Bool.bool_dec (is_int y0) (is_int x)) as [Hs | Hd].
        -- assert (Hall : forall y, In y (y0 :: r0) -> is_int y = is_int x).
           { intros y Hy. rewrite <- Hs. apply Hk; apply Hi;
               [exact Hy | now left]. }
           destruct (insert_same_kind x (y0 :: r0) Hall) as (r' & Hr & Hi').
           rewrite Hr. split.
           ++ intros v. rewrite Hi', Hi. simpl. intuition.
           ++ intros a b [-> | Ha] [-> | Hb]; try reflexivity.
              ** symmetry. apply Hall. now apply Hi.
              ** apply Hall. now apply Hi.
              ** now apply Hk.
        -- destruct (insert_other_kind x y0 r0 Hd) as (e & He & Ht).
           rewrite He. split; [exact Ht |].
           assert (H0 : In y0 l) by (apply Hi; now left).
           destruct (is_int x) eqn:Ex.
           ++ exists x, y0. repeat split; [now left | now right | exact Ex |].
              destruct (is_int y0); [elim Hd; reflexivity | reflexivity].
           ++ exists y0, x. repeat split; [now right | now left | | exact Ex].
              destruct (is_int y0); [reflexivity | elim Hd; reflexivity].
    + destruct IH as [Ht (a & b & Ha & Hb & Ea & Eb)].
      split; [exact Ht |]. exists a, b.
      repeat split; [now right | now right | exact Ea | exact Eb].
Qed.

(** X12.  [_format_rag_answer] fails exactly when the retrieved documents
    mix a page that is a number with a page that is a string (the default
    'N/A' of a document without page included), and it then fails with a
    [TypeError]; whatever the answer text, it succeeds otherwise. *)
Theorem rag_footer_fails_iff_pages_mix (answer : string)
  (docs : list Document) :
  ((exists e, _format_rag_answer answer docs = Raise e)
   <-> exists d1 d2 z p,
         In d1 docs /\ In d2 docs
         /\ page_of d1 = PInt z /\ page_of d2 = PStr p)
  /\ forall e, _format_rag_answer answer docs = Raise e ->
               exc_type e = "TypeError".
Proof.
  unfold _format_rag_answer.
  pose proof (sorted_spec (set (map page_of docs))) as H.
  destruct (sorted (set (map page_of docs))) as [r | e].
  - destruct H as [_ Hk]. split; [| intros e H; discriminate H].
    split; [intros (e & H); discriminate H |].
    intros (d1 & d2 & z & p & H1 & H2 & E1 & E2).
    assert (Hc : is_int (page_of d1) = is_int (page_of d2)).
    { apply Hk; apply (proj2 (in_set _ _)); now apply in_map. }
    rewrite E1, E2 in Hc. discriminate Hc.
  - destruct H as [Ht (x & y & Hx & Hy & Ex & Ey)].
    split; [| intros e' H; apply (f_equal (fun r => match r with
                                                     | Raise e0 => exc_type e0
                                                     | Ok _ => ""
                                                     end)) in H;
              cbv beta iota in H; now rewrite <- H].
    split; [| intros _; exists e; reflexivity].
    intros _. apply (proj1 (in_set _ _)) in Hx.
    apply (proj1 (in_set _ _)) in Hy.
    apply in_map_iff in Hx. destruct Hx as (d1 & E1 & H1).
    apply in_map_iff in Hy. destruct Hy as (d2 & E2 & H2).
    destruct (page_of d1) as [z | p1] eqn:P1; [| subst x; discriminate Ex].
    destruct (page_of d2) as [z2 | p] eqn:P2; [subst y; discriminate Ey |].
    exists d1, d2, z, p. repeat split; assumption.
Qed.

(** X13.  When every retrieved document has a number as page,
    [_format_rag_answer] succeeds: the result is the answer followed by the
    footer, whose pages are the first five of the distinct page numbers in
    strictly ascending order and whose count is the number of documents. *)
Theorem rag_footer_with_numbered_pages (answer : string)
  (docs : list Document) (pages : list Z) :
  map page_of docs = map PInt pages ->
  exists r,
    StronglySorted Z.lt r
    /\ (forall z, In z r <-> In z pages)
    /\ _format_rag_answer answer docs
       = Ok (answer ++ nl ++ nl
               ++ "---" ++ nl
               ++ "**📚 Source Information:**" ++ nl
               ++ "• **Source:** Pinecone Legal Database" ++ nl
               ++ "• **Relevant Pages:** "
               ++ join ", " (map str_of_Z (firstn 5 r)) ++ nl
               ++ "• **Documents Analyzed:** "
               ++ str_of_nat (length docs) ++ nl).
Proof.
  intros Hp. destruct (footer_pages_ascending pages) as (r & Hr & Hs & Hi).
  exists r. split; [exact Hs |]. split; [exact Hi |].
  unfold _format_rag_answer. rewrite Hp, Hr.
  rewrite firstn_map, map_map. reflexivity.
Qed.

(** X13 on two documents of page 7 and one of page 3. *)
Lemma rag_footer_with_numbered_pages_witness :
  map page_of [article_21; article_14; article_21] = map PInt [7; 3; 7]%Z
  /\ exists r,
      StronglySorted Z.lt r
      /\ (forall z, In z r <-> In z [7; 3; 7]%Z)
      /\ _format_rag_answer "Equality."
           [article_21; article_14; article_21]
         = Ok ("Equality." ++ nl ++ nl
                 ++ "---" ++ nl
                 ++ "**📚 Source Information:**" ++ nl
                 ++ "• **Source:** Pinecone Legal Database" ++ nl
                 ++ "• **Relevant Pages:** "
                 ++ join ", " (map str_of_Z (firstn 5 r)) ++ nl
                 ++ "• **Documents Analyzed:** "
                 ++ str_of_nat (length [article_21; article_14; article_21])
                 ++ nl).
Proof.
  split; [reflexivity |].
  apply (rag_footer_with_numbered_pages "Equality."
           [article_21; article_14; article_21] [7; 3; 7]%Z).
  reflexivity.
Defined.

(** ** The digest of a document, cut or reduced to its marker *)

(** What the loop of [_summarize_content] gathers is, once stripped, within
    the cap. *)
Lemma gathered_within_cap (content : string) (max_length : nat) :
  String.length (strip (take_sentences (split "." content) "" max_length))
  <= max_length.
Proof.
  destruct (take_sentences_shape (split "." content) max_length ""
              (or_introl eq_refl)) as [H | (s & H & Hl)]; rewrite H.
  - simpl. lia.
  - pose proof (length_strip_app_space s " " eq_refl). lia.
Qed.

(** X14.  A text longer than the cap is never returned whole: the result of
    [_summarize_content] is a summary of at most [max_length] characters
    followed by the marker "..", so that the marker is always there and the
    whole has at most [max_length + 2] characters. *)
Theorem long_text_gets_the_marker (content : string) (max_length : nat) :
  max_length < String.length content ->
  exists summary,
    _summarize_content content max_length = summary ++ ".."
    /\ String.length summary <= max_length.
Proof.
  intros Hlong. unfold _summarize_content.
  pose proof (gathered_within_cap content max_length) as H.
  destruct (String.length content <=? max_length)%nat eqn:E.
  - apply Nat.leb_le in E. lia.
  - assert (Hlt : (String.length
                     (strip (take_sentences (split "." content) ""
                               max_length))
                   <? String.length content)%nat = true)
      by (apply Nat.ltb_lt; lia).
    rewrite Hlt. eexists. split; [reflexivity | exact H].
Qed.

(** X14 on the example of the specification. *)
Lemma long_text_gets_the_marker_witness :
  5 < String.length "A. B. C. D."
  /\ exists summary,
      _summarize_content "A. B. C. D." 5 = summary ++ ".."
      /\ String.length summary <= 5.
Proof.
  split.
  - simpl. lia.
  - apply long_text_gets_the_marker. simpl. lia.
Defined.

(** X15.  When a text is longer than the cap and its first sentence (what
    precedes its first full stop, or all of it) is blank or does not fit
    under the cap, nothing of the text is kept: the result is the bare
    marker "..". *)
Theorem first_sentence_too_long_leaves_the_marker (content : string)
  (max_length : nat) :
  max_length < String.length content ->
  strip (hd "" (split "." content)) = ""
  \/ max_length <= String.length (hd "" (split "." content)) ->
  _summarize_content content max_length = "..".
Proof.
  intros Hlong Hfirst. unfold _summarize_content.
  destruct (String.length content <=? max_length)%nat eqn:E;
    [apply Nat.leb_le in E; lia |].
  assert (Hnone : take_sentences (split "." content) "" max_length = "").
  { destruct (split "." content) as [| first rest]; [reflexivity |].
    cbn [hd] in Hfirst. cbn [take_sentences].
    destruct Hfirst as [Hb | Hl].
    - rewrite Hb. reflexivity.
    - assert (Hn : (String.length ("" ++ first) <? max_length)%nat = false)
        by (apply Nat.ltb_ge; exact Hl).
      rewrite Hn, andb_false_r. reflexivity. }
  rewrite Hnone. cbn [strip lstrip rstrip String.length].
  destruct (String.length content) as [| n]; [lia | reflexivity].
Qed.

(** X15 on a text whose only sentence has 160 letters, with the cap of the
    terminal stage. *)
Lemma first_sentence_too_long_leaves_the_marker_witness :
  150 < String.length (replicate 160 "a")
  /\ (strip (hd "" (split "." (replicate 160 "a"))) = ""
      \/ 150 <= String.length (hd "" (split "." (replicate 160 "a"))))
  /\ _summarize_content (replicate 160 "a") 150 = "..".
Proof.
  assert (H1 : 150 < String.length (replicate 160 "a"))
    by (vm_compute; lia).
  assert (H2 : strip (hd "" (split "." (replicate 160 "a"))) = ""
               \/ 150 <= String.length (hd "" (split "." (replicate 160 "a"))))
    by (right; vm_compute; lia).
  split; [exact H1 |]. split; [exact H2 |].
  apply first_sentence_too_long_leaves_the_marker; assumption.
Defined.

(** ** The context of the RAG prompt *)

Lemma chars_append (a b : string) :
  list_ascii_of_string (a ++ b)
  = (list_ascii_of_string a ++ list_ascii_of_string b)%list.
Proof. induction a as [| c a IH]; simpl; [reflexivity | now rewrite IH]. Qed.

Lemma chars_lstrip (s : string) (c : ascii) :
  In c (list_ascii_of_string (lstrip s)) -> In c (list_ascii_of_string s).
Proof.
  induction s as [| a s IH]; simpl; [auto |].
  destruct (is_space a); simpl; auto.
Qed.

Lemma chars_rstrip (s : string) (c : ascii) :
  In c (list_ascii_of_string (rstrip s)) -> In c (list_ascii_of_string s).
Proof.
  induction s as [| a s IH]; simpl; [auto |].
  destruct (is_space a && is_empty (rstrip s)); simpl; [intros [] |].
  intros [H | H]; auto.
Qed.

Lemma chars_prefix (n : nat) (s : string) (c : ascii) :
  In c (list_ascii_of_string (prefix n s)) -> In c (list_ascii_of_string s).
Proof.
  unfold prefix. revert n. induction s as [| a s IH]; intros [| n]; simpl.
  - intros H. exact H.
  - intros H. exact H.
  - intros H. elim H.
  - intros [H | H]; [now left | right; eapply IH; exact H].
Qed.

Lemma length_prefix (n : nat) (s : string) :
  String.length (prefix n s) <= n.
Proof.
  unfold prefix. revert n. induction s as [| a s IH]; intros [| n]; simpl;
    try lia.
  specialize (IH n). lia.
Qed.

(** After [re.sub(r'\s+', ' ', s)] the only whitespace left is the plain
    space. *)
Lemma one_line_sub_spaces (s : string) : one_line (sub_spaces s).
Proof.
  unfold one_line. induction s as [| a s IH]; intros c; simpl; [intros [] |].
  destruct (is_space a) eqn:Ea.
  - destruct s as [| a' s'].
    + simpl. intros [<- | []] _. reflexivity.
    + destruct (is_space a'); [apply IH |].
      intros [<- | H] Hc; [reflexivity | now apply IH].
  - intros [<- | H] Hc; [congruence | now apply IH].
Qed.

Lemma one_line_prepared_content (doc : Document) :
  one_line (prepared_content doc)
  /\ String.length (prepared_content doc) <= 403.
Proof.
  unfold prepared_content. cbv zeta.
  assert (Hl : one_line (strip (sub_spaces (page_content doc)))).
  { intros c Hc. apply (one_line_sub_spaces (page_content doc)).
    apply chars_lstrip, chars_rstrip. exact Hc. }
  destruct (400 <? String.length (strip (sub_spaces (page_content doc))))%nat
    eqn:E.
  - split.
    + intros c Hc Hs. rewrite chars_append in Hc. apply in_app_or in Hc.
      destruct Hc as [Hc | Hc].
      * apply Hl; [eapply chars_prefix; exact Hc | exact Hs].
      * simpl in Hc. destruct Hc as [<- | [<- | [<- | []]]]; discriminate Hs.
    + rewrite length_append.
      pose proof (length_prefix 400 (strip (sub_spaces (page_content doc)))).
      simpl. lia.
  - apply Nat.ltb_ge in E. split; [exact Hl | lia].
Qed.

Lemma context_entries_shape (i : nat) (docs : list Document) :
  context_entries i docs
  = map (fun p => context_label (fst p) (snd p) ++ prepared_content (snd p))
      (combine (seq i (length docs)) docs).
Proof.
  revert i. induction docs as [| doc rest IH]; intros i; [reflexivity |].
  cbn [context_entries length seq combine map fst snd]. rewrite IH.
  f_equal. unfold context_label, prepared_content. cbv zeta.
  rewrite !append_assoc. reflexivity.
Qed.

(** X16.  The context [_prepare_context] builds is the header followed by
    one entry per document, in order and numbered from 1, joined by blank
    lines.  Each entry is the label of the document followed by at most 403
    characters of its text, in which the only whitespace is the plain space:
    no line break of a document reaches the prompt. *)
Theorem context_is_bounded_and_line_free (docs : list Document) :
  _prepare_context docs
  = join (nl ++ nl)
      (("**RELEVANT LEGAL DOCUMENTS FROM DATABASE:**" ++ nl)
         :: map (fun p =>
                   context_label (fst p) (snd p) ++ prepared_content (snd p))
              (combine (seq 0 (length docs)) docs))
  /\ forall doc,
      String.length (prepared_content doc) <= 403
      /\ one_line (prepared_content doc).
Proof.
  split.
  - unfold _prepare_context. cbv zeta. rewrite context_entries_shape.
    reflexivity.
  - intros doc. destruct (one_line_prepared_content doc). split; assumption.
Qed.

(** ** The wrapper and its own flag *)

Section Flag.

Context {A B : Type}.

Lemma flag_still (m : M A) :
  (forall s w, bot (m s w) = s) -> keeps_flag m.
Proof. intros H s w Hs. rewrite H. exact Hs. Qed.

Lemma flag_update (f : Chatbot -> Chatbot) :
  (forall s, _initialized s = true -> _initialized (f s) = true) ->
  keeps_flag (update f).
Proof. intros H s w Hs. apply H. exact Hs. Qed.

Lemma flag_bind (m : M A) (k : A -> M B) :
  keeps_flag m -> (forall a, keeps_flag (k a)) -> keeps_flag (bind m k).
Proof.
  intros Hm Hk s w Hs. unfold bind. specialize (Hm s w Hs).
  destruct (m s w) as [[[a | e] s'] w']; unfold bot in Hm; cbn [fst snd] in Hm.
  - apply Hk. exact Hm.
  - exact Hm.
Qed.

Lemma flag_try_except (body : M A) (handler : exn -> M A) :
  keeps_flag body -> (forall e, keeps_flag (handler e)) ->
  keeps_flag (try_except body handler).
Proof.
  intros Hm Hh s w Hs. unfold try_except. specialize (Hm s w Hs).
  destruct (body s w) as [[[a | e] s'] w']; unfold bot in Hm;
    cbn [fst snd] in Hm.
  - exact Hm.
  - apply Hh. exact Hm.
Qed.

End Flag.

(** Follows the flag through a computation, part by part. *)
Ltac flag :=
  repeat first
    [ apply flag_still; reflexivity
    | apply flag_update; intros ? ?; assumption
    | apply flag_update; reflexivity
    | apply flag_bind; [| intros ?]
    | apply flag_try_except; [| intros ?]
    | match goal with
      | |- keeps_flag (if ?b then _ else _) => destruct b
      | |- keeps_flag (match ?x with _ => _ end) => destruct x
      end ].

Section WrapperFlag.

Variable env : Env.

Lemma flag_fallback (question : string) :
  keeps_flag (_fallback_approach env question).
Proof.
  unfold _fallback_approach, vector_store_similarity_search. flag.
Qed.

Lemma flag_direct (question : string) :
  keeps_flag (_direct_gemini_approach env question).
Proof.
  unfold _direct_gemini_approach, client_generate_content.
  apply flag_try_except.
  - flag.
  - intros e. apply flag_bind; [flag | intros _; apply flag_fallback].
Qed.

Lemma flag_rag (question : string) (docs : list Document) :
  keeps_flag (_rag_approach env question docs).
Proof.
  unfold _rag_approach, client_generate_content.
  apply flag_try_except.
  - flag.
  - intros e. apply flag_bind; [flag | intros _; apply flag_direct].
Qed.

Lemma flag_initialize : keeps_flag (initialize env).
Proof.
  intros s w Hs. unfold initialize. run_monad. rewrite Hs. exact Hs.
Qed.

(** No query clears the flag of an initialized orchestrator, whatever its
    handles are. *)
Lemma flag_query (question : string) : keeps_flag (query env question).
Proof.
  unfold query. apply flag_bind; [flag | intros s0].
  apply flag_bind.
  - destruct (negb (_initialized s0)); [apply flag_initialize | flag].
  - intros success. destruct (negb success); [flag |].
    apply flag_try_except.
    + unfold query_body, rate_limit, time_sleep,
        vector_store_similarity_search, _has_relevant_documents.
      apply flag_bind; [flag | intros _].
      apply flag_bind; [flag | intros _].
      apply flag_bind; [flag | intros _].
      apply flag_bind; [flag | intros docs].
      apply flag_bind; [flag | intros b].
      destruct b.
      * apply flag_bind; [flag | intros _; apply flag_rag].
      * apply flag_bind; [flag | intros _; apply flag_direct].
    + intros e. apply flag_bind; [flag | intros _; apply flag_fallback].
Qed.

(** X17.  [initialize_qa_chain] never raises and returns the value of the
    wrapper's flag afterwards.  A wrapper whose flag, when set, tells the
    truth about its orchestrator stays so through [initialize_qa_chain] and
    through [query]. *)
Theorem wrapper_flag_stays_sound (question : string)
  (c : ConstitutionChatbot.t) (w : World) :
  flag_is_sound c ->
  outcome_value (ConstitutionChatbot.initialize_qa_chain env c w)
  = Ok (ConstitutionChatbot._initialized'
          (outcome_state (ConstitutionChatbot.initialize_qa_chain env c w)))
  /\ flag_is_sound
       (outcome_state (ConstitutionChatbot.initialize_qa_chain env c w))
  /\ flag_is_sound
       (outcome_state (ConstitutionChatbot.query env question c w)).
Proof.
  intros Hc. unfold flag_is_sound in *. split; [| split].
  - unfold ConstitutionChatbot.initialize_qa_chain.
    destruct (ConstitutionChatbot._initialized' c) eqn:E; [now rewrite <- E |].
    destruct (initialize_flag env (ConstitutionChatbot.chatbot c) w)
      as (b & Hv & Hf).
    destruct (initialize env (ConstitutionChatbot.chatbot c) w)
      as [[r s'] w'].
    unfold value in Hv. cbn [fst] in Hv. subst r. reflexivity.
  - unfold ConstitutionChatbot.initialize_qa_chain.
    destruct (ConstitutionChatbot._initialized' c) eqn:E;
      [unfold outcome_state; cbn [fst snd]; intros _; apply Hc; reflexivity |].
    destruct (initialize_flag env (ConstitutionChatbot.chatbot c) w)
      as (b & Hv & Hf).
    destruct (initialize env (ConstitutionChatbot.chatbot c) w)
      as [[r s'] w'].
    unfold value in Hv. unfold bot in Hf. cbn [fst snd] in Hv, Hf. subst r.
    unfold outcome_state. cbn [fst snd]. cbn. intros Hb. now rewrite Hf.
  - unfold ConstitutionChatbot.query.
    pose proof (flag_query question (ConstitutionChatbot.chatbot c) w) as Hq.
    destruct (query env question (ConstitutionChatbot.chatbot c) w)
      as [[r s'] w'].
    unfold bot in Hq. cbn [fst snd] in Hq.
    unfold outcome_state. cbn. intros Hb. apply Hq. apply Hc. exact Hb.
Qed.

End WrapperFlag.

(** X17 on the wrapper of a fresh orchestrator. *)
Lemma wrapper_flag_stays_sound_witness :
  flag_is_sound fresh_wrapper
  /\ outcome_value
       (ConstitutionChatbot.initialize_qa_chain first_use fresh_wrapper
          (at_time 100))
     = Ok (ConstitutionChatbot._initialized'
             (outcome_state
                (ConstitutionChatbot.initialize_qa_chain first_use
                   fresh_wrapper (at_time 100)))).
Proof.
  assert (H : flag_is_sound fresh_wrapper)
    by (unfold flag_is_sound; simpl; discriminate).
  split; [exact H |].
  apply (wrapper_flag_stays_sound first_use "foo bar baz" fresh_wrapper
           (at_time 100) H).
Defined.

(** X18.  A wrapper that was never told to initialize still answers: its
    first [query] initializes the orchestrator.  When that succeeds the
    orchestrator is initialized but the wrapper's own flag is still unset;
    a later [initialize_qa_chain] then only sets the flag, in any
    environment, with no call and no change of the orchestrator. *)
Theorem wrapper_misses_lazy_initialization (env env' : Env)
  (question : string) (c : ConstitutionChatbot.t) (w w' : World) :
  ConstitutionChatbot._initialized' c = false ->
  _initialized (ConstitutionChatbot.chatbot c) = false ->
  value (initialize env (ConstitutionChatbot.chatbot c) w) = Ok true ->
  ConstitutionChatbot._initialized'
    (outcome_state (ConstitutionChatbot.query env question c w)) = false
  /\ _initialized
       (ConstitutionChatbot.chatbot
          (outcome_state (ConstitutionChatbot.query env question c w)))
     = true
  /\ ConstitutionChatbot.initialize_qa_chain env'
       (outcome_state (ConstitutionChatbot.query env question c w)) w'
     = (Ok true,
        {| ConstitutionChatbot.chatbot :=
             ConstitutionChatbot.chatbot
               (outcome_state (ConstitutionChatbot.query env question c w));
           ConstitutionChatbot._initialized' := true |},
        w').
Proof.
  intros Hw Hi Hv.
  assert (Hq : _initialized
                 (bot (query env question (ConstitutionChatbot.chatbot c) w))
               = true).
  { rewrite query_resumes_after_initialize by assumption.
    apply flag_query.
    destruct (initialize_flag env (ConstitutionChatbot.chatbot c) w)
      as (b & Hb & Hf).
    rewrite Hv in Hb. apply Ok_inj in Hb. subst b. exact Hf. }
  unfold ConstitutionChatbot.query.
  destruct (query env question (ConstitutionChatbot.chatbot c) w)
    as [[r s'] w''].
  unfold bot in Hq. cbn [fst snd] in Hq.
  unfold outcome_state. cbn [fst snd].
  cbn [ConstitutionChatbot._initialized' ConstitutionChatbot.chatbot].
  split; [exact Hw |]. split; [exact Hq |].
  unfold ConstitutionChatbot.initialize_qa_chain.
  cbn [ConstitutionChatbot._initialized' ConstitutionChatbot.chatbot].
  rewrite Hw.
  unfold initialize. run_monad. rewrite Hq. reflexivity.
Qed.

(** X18 on the wrapper of a fresh orchestrator, in an environment where
    everything answers. *)
Lemma wrapper_misses_lazy_initialization_witness :
  ConstitutionChatbot._initialized' fresh_wrapper = false
  /\ _initialized (ConstitutionChatbot.chatbot fresh_wrapper) = false
  /\ value (initialize first_use (ConstitutionChatbot.chatbot fresh_wrapper)
              (at_time 100)) = Ok true
  /\ ConstitutionChatbot._initialized'
       (outcome_state
          (ConstitutionChatbot.query first_use "foo bar baz" fresh_wrapper
             (at_time 100))) = false.
Proof.
  split; [reflexivity |]. split; [reflexivity |].
  split; [vm_compute; reflexivity |].
  apply (wrapper_misses_lazy_initialization first_use retrieval_down
           "foo bar baz" fresh_wrapper (at_time 100) (at_time 200));
    [reflexivity | reflexivity | vm_compute; reflexivity].
Defined.

(** ** The two singletons *)

Section SingletonProperties.

Variable env : Env.
Variable load : Q -> list CallRecord -> res Embeddings.
Variable console : string -> res unit.

(** [get_embeddings] when nothing is cached, by what the loader and the
    console do. *)
Lemma get_embeddings_run (g : Globals) (w : World) :
  _embeddings g = None ->
  get_embeddings load console g w =
    let w1 := printed "Loading embeddings model..." w in
    match load (now w1) (calls w1) with
    | Raise e => (Raise e, g, w1)
    | Ok model =>
        let g1 := {| _embeddings := Some model;
                     _chatbot_instance := _chatbot_instance g |} in
        match console "✓ Embeddings model loaded" with
        | Ok _ => (Ok model, g1, printed "✓ Embeddings model loaded" w1)
        | Raise e => (Raise e, g1, w1)
        end
    end.
Proof.
  intros E. unfold get_embeddings, console_print. rewrite E.
  replace (is_ascii "Loading embeddings model...") with true
    by (vm_compute; reflexivity).
  replace (is_ascii "✓ Embeddings model loaded") with false
    by (vm_compute; reflexivity).
  cbv zeta.
  match goal with
  | |- context [load ?t ?h] => destruct (load t h) as [model | e]
  end; [| reflexivity].
  destruct (console "✓ Embeddings model loaded"); reflexivity.
Qed.

Lemma get_embeddings_cached (g : Globals) (w : World) (model : Embeddings) :
  _embeddings g = Some model ->
  get_embeddings load console g w = (Ok model, g, w).
Proof. intros E. unfold get_embeddings. rewrite E. reflexivity. Qed.

(** X19.  The embeddings model is loaded at most once.  Whenever a model is
    cached after a call of [get_embeddings], every later call returns that
    model without loading and without printing, whatever the loader and the
    console would do; and a call that returns has cached the model it
    returns.  A call raises only when nothing was cached before it, in one
    of two ways: the loader raised, and then nothing is cached and the next
    call loads again; or the loader returned and the closing line, which
    carries a check mark, could not be printed, and then the model is
    cached although the call raised. *)
Theorem embeddings_are_loaded_once (g : Globals) (w : World) :
  let o := get_embeddings load console g w in
  (forall model,
      _embeddings (outcome_state o) = Some model ->
      forall (load' : Q -> list CallRecord -> res Embeddings)
             (console' : string -> res unit) (w' : World),
        get_embeddings load' console' (outcome_state o) w'
        = (Ok model, outcome_state o, w'))
  /\ match outcome_value o with
     | Ok model => _embeddings (outcome_state o) = Some model
     | Raise e =>
         _embeddings g = None
         /\ let w1 := printed "Loading embeddings model..." w in
            match load (now w1) (calls w1) with
            | Raise e' => e = e' /\ outcome_state o = g
            | Ok model =>
                console "✓ Embeddings model loaded" = Raise e
                /\ _embeddings (outcome_state o) = Some model
            end
     end.
Proof.
  cbv zeta. split.
  - intros model E load' console' w'. unfold get_embeddings at 1.
    rewrite E. reflexivity.
  - destruct (_embeddings g) as [model |] eqn:E.
    + rewrite (get_embeddings_cached g w model E).
      unfold outcome_value, outcome_state. cbn [fst snd]. exact E.
    + rewrite (get_embeddings_run g w E). cbv zeta.
      match goal with
      | |- context [load ?t ?h] => destruct (load t h) as [model | e]
      end.
      * destruct (console "✓ Embeddings model loaded") as [u | e] eqn:Ec;
          unfold outcome_value, outcome_state; cbn [fst snd _embeddings].
        -- reflexivity.
        -- repeat split.
      * unfold outcome_value, outcome_state. cbn [fst snd]. repeat split.
Qed.

(** X20.  [get_chatbot] hands out one object.  When it returns, the
    wrapper it returns is the one [_chatbot_instance] holds, and every
    later call returns it again, in any environment, without building,
    loading or logging anything.  A wrapper built by the call is not
    initialized, and neither is its orchestrator, whose rate limiter starts
    from a timestamp of 0 and an interval of 1.  When the call raises, no
    instance is kept. *)
Theorem get_chatbot_hands_out_one_object (g : Globals) (w : World) :
  match outcome_value (get_chatbot env load console g w) with
  | Ok c =>
      _chatbot_instance (outcome_state (get_chatbot env load console g w))
      = Some c
      /\ (forall (env' : Env)
                 (load' : Q -> list CallRecord -> res Embeddings)
                 (console' : string -> res unit)
                 (w' : World),
             get_chatbot env' load' console'
               (outcome_state (get_chatbot env load console g w)) w'
             = (Ok c, outcome_state (get_chatbot env load console g w), w'))
      /\ (_chatbot_instance g = None ->
          ConstitutionChatbot._initialized' c = false
          /\ _initialized (ConstitutionChatbot.chatbot c) = false
          /\ last_call_time (ConstitutionChatbot.chatbot c) = 0%Q
          /\ min_call_interval (ConstitutionChatbot.chatbot c) = 1%Q)
  | Raise _ =>
      _chatbot_instance g = None
      /\ _chatbot_instance (outcome_state (get_chatbot env load console g w))
         = None
  end.
Proof.
  unfold get_chatbot.
  destruct (_chatbot_instance g) as [c |] eqn:E.
  - unfold outcome_value, outcome_state. cbn [fst snd].
    split; [exact E |]. split; [| intros H; discriminate H].
    intros env' load' console' w'. rewrite E. reflexivity.
  - cbv zeta. unfold SmartLegalChatbot_new, new_chatbot, new_manager.
    destruct (_embeddings g) as [model |] eqn:Em.
    + rewrite (get_embeddings_cached g _ model Em).
      destruct (not_set (PINECONE_API_KEY env));
        unfold outcome_value, outcome_state; cbn [fst snd].
      * split; [reflexivity | exact E].
      * split; [reflexivity |]. split; [| intros _; repeat split].
        intros env' load' console' w'. reflexivity.
    + rewrite (get_embeddings_run g _ Em). cbv zeta.
      match goal with
      | |- context [load ?t ?h] => destruct (load t h) as [model | e]
      end.
      * destruct (console "✓ Embeddings model loaded") as [u | e].
        -- destruct (not_set (PINECONE_API_KEY env));
             unfold outcome_value, outcome_state; cbn [fst snd].
           ++ split; [reflexivity | exact E].
           ++ split; [reflexivity |]. split; [| intros _; repeat split].
              intros env' load' console' w'. reflexivity.
        -- unfold outcome_value, outcome_state. cbn [fst snd].
           split; [reflexivity | exact E].
      * unfold outcome_value, outcome_state. cbn [fst snd].
        split; [reflexivity | exact E].
Qed.


End SingletonProperties.


(** ** The index check, when the listing answers *)

(** X22.  [check_index_exists] never raises, leaves the orchestrator alone
    and makes exactly one call, the listing.  It returns [True] exactly
    when the listing answered and names the index of the manager; it prints
    a line only when the listing failed. *)
Theorem check_index_exists_asks_once (env : Env) (vm : VectorStoreManager)
  (s : Chatbot) (w : World) :
  exists b,
    value (check_index_exists env vm s w) = Ok b
    /\ (b = true
        <-> exists names,
              listing_at env w = Ok names
              /\ In (index_name vm) names)
    /\ bot (check_index_exists env vm s w) = s
    /\ map call (calls_since w (check_index_exists env vm s w))
       = [ListIndexes]
    /\ ((exists names, listing_at env w = Ok names) ->
        stdout (world (check_index_exists env vm s w)) = stdout w).
Proof.
  unfold check_index_exists, listed, print, listing_at. run_monad.
  destruct (list_indexes env (now w) (calls w)) as [names | e].
  - exists (existsb (String.eqb (index_name vm)) names).
    split; [reflexivity |]. split; [| split; [reflexivity | split]].
    + rewrite existsb_exists. split.
      * intros (x & Hx & Heq). apply String.eqb_eq in Heq. subst x.
        exists names. split; [reflexivity | exact Hx].
      * intros (names' & H & Hin). apply Ok_inj in H. subst names'.
        exists (index_name vm). split; [exact Hin | apply String.eqb_refl].
    + unfold calls_since, world. cbn [snd calls answered].
      rewrite skipn_length_app. reflexivity.
    + intros _. reflexivity.
  - exists false. split; [reflexivity |].
    split; [| split; [reflexivity | split]].
    + split; [discriminate |]. intros (names & H & _). discriminate H.
    + unfold calls_since, world. cbn [snd calls answered printed].
      rewrite skipn_length_app. reflexivity.
    + intros (names & H). discriminate H.
Qed.
